(** * The CVIAS vision-language client ([cvias/vision_language/vllm_client.py])

    A shallow embedding of [VisionLanguageModelVLLM]: the inference primitive
    [infer_with_image] and the scoring policy [detect], over a model of the
    Python values they handle (strings of code points, binary64 floats,
    [re] matching, exceptions) and of the collaborators they call (PIL, the
    OpenAI SDK and the server behind it, [math.exp]). *)

From Stdlib Require Import ZArith NArith List Bool String Ascii Lia Floats.
From Stdlib Require Uint63.
Import ListNotations.

#[local] Set Warnings "-inexact-float".

(** ** Python strings

    A [str] is a sequence of Unicode code points. *)
Module PyStr.

Definition str : Type := list N.

(** A literal of the source, for ASCII text. *)
Definition lit (s : string) : str :=
  map N_of_ascii (list_ascii_of_string s).

Fixpoint eqb (a b : str) : bool :=
  match a, b with
  | [], [] => true
  | x :: a', y :: b' => N.eqb x y && eqb a' b'
  | _, _ => false
  end.

Fixpoint startswith (s prefix : str) : bool :=
  match prefix, s with
  | [], _ => true
  | p :: prefix', c :: s' => N.eqb c p && startswith s' prefix'
  | _ :: _, [] => false
  end.

(** [needle in hay]. *)
Fixpoint contains (needle hay : str) : bool :=
  startswith hay needle ||
  match hay with
  | [] => false
  | _ :: hay' => contains needle hay'
  end.

(** [sep.join(parts)]. *)
Fixpoint join (sep : str) (parts : list str) : str :=
  match parts with
  | [] => []
  | [p] => p
  | p :: parts' => p ++ sep ++ join sep parts'
  end.

(** [x in xs] for a list of strings. *)
Definition mem (x : str) (xs : list str) : bool :=
  existsb (eqb x) xs.

(** Truth value of an optional string: [None] and [""] are false. *)
Definition truthy (s : option str) : bool :=
  match s with
  | Some (_ :: _) => true
  | _ => false
  end.

(** ASCII lower-casing, the restriction of [str.lower] to ASCII text. *)
Definition ascii_lower_char (c : N) : N :=
  if (65 <=? c)%N && (c <=? 90)%N then (c + 32)%N else c.

Definition ascii_lower (s : str) : str := map ascii_lower_char s.

(** Decimal value of an ASCII digit. *)
Definition ascii_decimal (c : N) : option N :=
  if (48 <=? c)%N && (c <=? 57)%N then Some (c - 48)%N else None.

End PyStr.

Import PyStr.

(** ** Python floats

    A [float] is an IEEE 754 binary64 number, Rocq's primitive [float];
    arithmetic and comparisons are the primitive ones. *)
Module PyFloat.

Open Scope float_scope.

(** The binary64 number nearest to [(-1)^s * n / d], ties to even: what a
    correctly rounded decimal-to-binary conversion returns. The division of
    the specification takes operands of any size and rounds once. *)
Definition nearest (s : bool) (n d : positive) : float :=
  SF2Prim (SF64div (S754_finite s n 0) (S754_finite false d 0)).

Definition pow10 (k : N) : positive :=
  match k with
  | N0 => 1%positive
  | Npos p => Pos.pow 10 p
  end.

(** [min(a, b)]: the first argument stays unless the second is smaller. *)
Definition min (a b : float) : float :=
  if b <? a then b else a.

(** The integer nearest to [m * 2^e * 10^ndigits], ties to even. *)
Definition scaled_int (ndigits : N) (m : positive) (e : Z) : Z :=
  let n := (Zpos m * Zpos (pow10 ndigits))%Z in
  if (0 <=? e)%Z then (n * 2 ^ e)%Z
  else
    let d := (2 ^ (- e))%Z in
    let q := (n / d)%Z in
    let r := (n mod d)%Z in
    match (2 * r ?= d)%Z with
    | Lt => q
    | Gt => (q + 1)%Z
    | Eq => if Z.even q then q else (q + 1)%Z
    end.

(** [round(x, ndigits)] for [ndigits >= 0]: the exact value of [x] is
    rounded half-even to [ndigits] decimals and the decimal result is
    converted back; infinities and NaN round to themselves. *)
Definition round (x : float) (ndigits : N) : float :=
  match Prim2SF x with
  | S754_finite s m e =>
      match scaled_int ndigits m e with
      | Zpos n => nearest s n (pow10 ndigits)
      | _ => if s then neg_zero else zero
      end
  | _ => x
  end.

End PyFloat.

(** ** Decimal digits, [float(str)] and [re.search]

    [\d] in a [str] pattern and [float] on a [str] both go through the
    interpreter's Unicode database: a code point is a decimal digit when the
    database gives it a decimal value. The database is a parameter. *)
Module Re.
Section WithDatabase.

(** The decimal value of a code point, when it has one. *)
Variable decimal : N -> option N.

Definition is_digit (c : N) : bool :=
  match decimal c with
  | Some _ => true
  | None => false
  end.

(** The patterns this client needs. *)
Inductive regex : Type :=
| Digit                       (* \d *)
| Chr (c : N)                 (* one literal character *)
| Cat (r1 r2 : regex)         (* r1 r2 *)
| Opt (r : regex)             (* (r)?  greedy *)
| Plus (r : regex).           (* r+    greedy *)

(** Backtracking matcher, in continuation-passing style: [rmatch r s k]
    matches [r] at the front of [s] and hands the rest of the string to [k];
    alternatives are tried in the priority order of [re], longest repetition
    first. The fuel of a repetition is the length of the string it runs on,
    which suffices when the repeated pattern consumes a character. *)
Fixpoint rmatch (r : regex) (s : str) (k : str -> option str) {struct r}
  : option str :=
  match r with
  | Digit =>
      match s with
      | c :: s' => if is_digit c then k s' else None
      | [] => None
      end
  | Chr a =>
      match s with
      | c :: s' => if N.eqb c a then k s' else None
      | [] => None
      end
  | Cat r1 r2 => rmatch r1 s (fun s1 => rmatch r2 s1 k)
  | Opt r1 =>
      match rmatch r1 s k with
      | Some rest => Some rest
      | None => k s
      end
  | Plus r1 =>
      (fix many (fuel : nat) (s : str) {struct fuel} : option str :=
         rmatch r1 s
           (fun s1 =>
              match fuel with
              | O => k s1
              | S fuel' =>
                  match many fuel' s1 with
                  | Some rest => Some rest
                  | None => k s1
                  end
              end))
        (List.length s) s
  end.

(** [re.search(r, s)], as the text of the match ([.group()]): the leftmost
    position where [r] matches, and there the match of highest priority. *)
Fixpoint search (r : regex) (s : str) : option str :=
  match rmatch r s Some with
  | Some rest => Some (firstn (List.length s - List.length rest) s)
  | None =>
      match s with
      | [] => None
      | _ :: s' => search r s'
      end
  end.

(** The value of a digit string read in base ten, most significant first. *)
Fixpoint digits_value (acc : N) (ds : str) : option N :=
  match ds with
  | [] => Some acc
  | c :: ds' =>
      match decimal c with
      | Some v => digits_value (10 * acc + v) ds'
      | None => None
      end
  end.

(** Splits a string at its first full stop. *)
Fixpoint split_point (s : str) : str * option str :=
  match s with
  | [] => ([], None)
  | c :: s' =>
      if N.eqb c 46 then ([], Some s')
      else let '(a, b) := split_point s' in (c :: a, b)
  end.

(** [float(s)] on plain decimal text: digits, possibly with a full stop
    among them, and at least one digit. The result is the binary64 number
    nearest to the decimal value. [None] stands for every other input of
    [float] (signs, exponents, blanks, [inf], [nan] and the [ValueError]
    cases). *)
Definition decimal_value (ip fp : str) : option float :=
  match ip ++ fp with
  | [] => None
  | _ :: _ =>
      match digits_value 0 (ip ++ fp) with
      | Some (Npos n) =>
          Some (PyFloat.nearest false n
                  (PyFloat.pow10 (N.of_nat (List.length fp))))
      | Some N0 => Some 0%float
      | None => None
      end
  end.

Definition float_of_str (s : str) : option float :=
  match split_point s with
  | (ip, None) => decimal_value ip []
  | (ip, Some fp) => decimal_value ip fp
  end.

(** The repetition [\d+] of the matcher, on its own: at least one digit, then
    as many more as the fuel and the continuation allow (an aid to the proofs
    about [rmatch]). *)
Fixpoint digits_then (k : str -> option str) (fuel : nat) (s : str) {struct s}
  : option str :=
  match s with
  | c :: s' =>
      if is_digit c then
        match fuel with
        | O => k s'
        | S fuel' =>
            match digits_then k fuel' s' with
            | Some rest => Some rest
            | None => k s'
            end
        end
      else None
  | [] => None
  end.

(** *** The extraction in the words of the specification

    "Extract the first decimal number (optionally with a fractional part)
    found anywhere in the returned text": the number starts at the first
    digit of the text and runs over the digits that follow; when a full stop
    and at least one digit come next, they belong to it too. *)
Fixpoint take_digits (s : str) : str :=
  match s with
  | c :: s' => if is_digit c then c :: take_digits s' else []
  | [] => []
  end.

Fixpoint drop_digits (s : str) : str :=
  match s with
  | c :: s' => if is_digit c then drop_digits s' else s
  | [] => []
  end.

Definition number_at (s : str) : str :=
  match drop_digits s with
  | 46%N :: t =>
      match take_digits t with
      | [] => take_digits s
      | fp => take_digits s ++ 46%N :: fp
      end
  | _ => take_digits s
  end.

(** The text left after the number that starts a string (an aid to the
    comparison with the matcher). *)
Definition after_number (s : str) : str :=
  match drop_digits s with
  | 46%N :: t =>
      match take_digits t with
      | [] => drop_digits s
      | _ => drop_digits t
      end
  | rest => rest
  end.

(** The text does not go on with a decimal digit. *)
Definition starts_without_digit (s : str) : Prop :=
  match s with
  | d :: _ => is_digit d = false
  | [] => True
  end.

Fixpoint spec_first_decimal_number (s : str) : option str :=
  match s with
  | [] => None
  | c :: s' => if is_digit c then Some (number_at s) else spec_first_decimal_number s'
  end.

(** "If no number is found, default to 0.10. Divide the extracted value by
    10 to map the 0-10 scale to 0-1, then clamp to a maximum of 1.0." *)
Definition spec_scaled_confidence (text : str) : option float :=
  match spec_first_decimal_number text with
  | Some number =>
      match float_of_str number with
      | Some value => Some (PyFloat.min (value / 10) 1)
      | None => None
      end
  | None => Some (PyFloat.min (0.10 / 10) 1)
  end.

End WithDatabase.

(** The pattern of [detect]: [\d+(\.\d+)?]. *)
Definition number_re : regex :=
  Cat (Plus Digit) (Opt (Cat (Chr 46) (Plus Digit))).

End Re.

(** ** Exceptions

    The exceptions of the interpreter that this module can raise itself, and
    [Raised] for whatever is raised inside a collaborator. *)
Record raised : Type :=
  { exc_class : string;            (* the name of the exception's class *)
    exc_is_SyntaxError : bool }.   (* whether that class derives from SyntaxError *)

Inductive exn : Type :=
| AssertionError (msg : string)
| AttributeError (attr : string)
| TypeError
| IndexError
| ValueError
| OverflowError
| UnboundLocalError (var : string)
| Raised (e : raised).

(** What [except SyntaxError] catches. *)
Definition is_SyntaxError (e : exn) : bool :=
  match e with
  | Raised r => exc_is_SyntaxError r
  | _ => false
  end.

Inductive result (A : Type) : Type :=
| Ok (a : A)
| Err (e : exn).
Arguments Ok {A} a.
Arguments Err {A} e.

(** ** The values exchanged with the collaborators *)

(** A NumPy array: shape and flat data. *)
Record ndarray : Type :=
  { nd_shape : list N; nd_data : list N }.

(** A PIL image: mode, size and pixel data. *)
Record PILImage : Type :=
  { im_mode : string; im_size : N * N; im_data : list N }.

(** The objects the local [client] of [infer_with_image] can be bound to: an
    [OpenAI] client, named by its rank among the clients constructed so far,
    or some other object that the SDK hands out. *)
Inductive pyobj : Type :=
| OpenAIClient (id : nat)
| Foreign (tag : N).

(** The arguments of [OpenAI(api_key=..., base_url=...)]. *)
Record OpenAIConfig : Type :=
  { cfg_api_key : str; cfg_base_url : str }.

(** The keyword arguments of [chat.completions.create]: one user message made
    of a text part and an image part, the model, [max_tokens], [logprobs]. *)
Record Request : Type :=
  { req_text : str;
    req_image_url : str;
    req_model : str;
    req_max_tokens : Z;
    req_logprobs : bool }.

(** The part of a chat completion that the client reads. *)
Record TokenLogprob : Type :=
  { token : str; logprob : float }.

Record Choice : Type :=
  { message_content : option str;                       (* message.content *)
    logprobs : option (option (list TokenLogprob)) }.   (* logprobs, logprobs.content *)

Record ChatCompletion : Type :=
  { choices : list Choice }.

(** The state the calls act on: the [OpenAI] clients constructed so far and
    the requests sent, each with the object it was sent through. *)
Record World : Type :=
  { clients : list OpenAIConfig;
    calls : list (pyobj * Request) }.

(** Every request recorded as sent through an [OpenAI] client names a client
    that was constructed. *)
Definition known_clients (w : World) : Prop :=
  forall id req, In (OpenAIClient id, req) (calls w) ->
    (id < List.length (clients w))%nat.

(** ** The collaborators

    Everything [vllm_client.py] imports and does not define. *)
Record Env : Type :=
  { (* math.exp; [None] when it raises OverflowError *)
    math_exp : float -> option float;
    (* str.lower *)
    str_lower : str -> str;
    (* the Unicode database: decimal value of a code point *)
    decimal : N -> option N;
    (* Image.open(path).convert("RGB") *)
    Image_open_RGB : str -> raised + PILImage;
    (* Image.fromarray(image), on whatever the caller passed *)
    Image_fromarray : option ndarray -> raised + PILImage;
    (* image.save(buffered, format="JPEG"); buffered.getvalue() *)
    save_JPEG : PILImage -> raised + list N;
    (* OpenAI(api_key=..., base_url=...): the exception the constructor
       raises on these arguments, [None] when it returns a client *)
    OpenAI_init : OpenAIConfig -> option raised;
    (* the attribute [stream] of an OpenAI client; [None] when it has none *)
    OpenAI_stream : nat -> option pyobj;
    (* obj.chat.completions.create(...): the SDK and the server behind it *)
    chat_completions_create : World -> pyobj -> Request -> raised + ChatCompletion }.

(** ** Effects: state and exceptions *)
Definition M (A : Type) : Type := World -> result A * World.

Definition ret {A} (a : A) : M A := fun w => (Ok a, w).

Definition raise {A} (e : exn) : M A := fun w => (Err e, w).

Definition bind {A B} (m : M A) (k : A -> M B) : M B :=
  fun w =>
    match m w with
    | (Ok a, w') => k a w'
    | (Err e, w') => (Err e, w')
    end.

Notation "x <- m ;; k" := (bind m (fun x => k))
  (at level 61, m at next level, right associativity).
Notation "' pat <- m ;; k" := (bind m (fun x => match x with pat => k end))
  (at level 61, pat pattern, m at next level, right associativity).

(** The outcome of a call into a collaborator. *)
Definition call {A} (r : raised + A) : M A :=
  match r with
  | inl e => raise (Raised e)
  | inr a => ret a
  end.

(** [assert cond, msg]. *)
Definition py_assert (cond : bool) (msg : string) : M unit :=
  if cond then ret tt else raise (AssertionError msg).

(** A computation that never fails on an [assert] of this module. *)
Definition no_assert {A} (m : M A) : Prop :=
  forall w msg w', m w <> (Err (AssertionError msg), w').

(** [xs[0]]. *)
Definition item0 {A} (xs : list A) : M A :=
  match xs with
  | x :: _ => ret x
  | [] => raise IndexError
  end.

(** [OpenAI(api_key=..., base_url=...)]: a new client, unless the
    constructor raises. *)
Definition OpenAI (E : Env) (api_key base_url : str) : M nat :=
  fun w =>
    let config := {| cfg_api_key := api_key; cfg_base_url := base_url |} in
    match OpenAI_init E config with
    | Some e => (Err (Raised e), w)
    | None =>
        (Ok (List.length (clients w)),
         {| clients := clients w ++ [config]; calls := calls w |})
    end.

(** ** base64.b64encode, read as text *)
Module base64.

Definition alphabet (i : N) : N :=
  if (i <? 26)%N then (65 + i)%N
  else if (i <? 52)%N then (97 + (i - 26))%N
  else if (i <? 62)%N then (48 + (i - 52))%N
  else if (i =? 62)%N then 43%N
  else 47%N.

Fixpoint b64encode (bs : list N) : str :=
  match bs with
  | [] => []
  | [a] =>
      [alphabet (a / 4); alphabet (a mod 4 * 16); 61; 61]%N
  | [a; b] =>
      [alphabet (a / 4); alphabet (a mod 4 * 16 + b / 16);
       alphabet (b mod 16 * 4); 61]%N
  | a :: b :: c :: rest =>
      (alphabet (a / 4) :: alphabet (a mod 4 * 16 + b / 16)
       :: alphabet (b mod 16 * 4 + c / 64) :: alphabet (c mod 64)
       :: b64encode rest)%N
  end.




End base64.

(** ** cog_cv_abstraction.schema.detected_object *)
Module detected_object.

(** Modelled from the spec: the result type [DetectedObject], whose package
    is not part of this repository; a plain record of the six fields that
    [detect] sets. *)
Record DetectedObject : Type :=
  { name : str;
    model_name : str;
    confidence : float;
    probability : float;
    number_of_detection : Z;
    is_detected : bool }.

End detected_object.

(** ** class VisionLanguageModelVLLM *)
Module VisionLanguageModelVLLM.

Import detected_object.
Open Scope float_scope.

(** The attributes of an instance; [client] is [None] or the [OpenAI]
    client made by the constructor. *)
Record t : Type :=
  { client : option nat;
    parallel_inference : bool;
    model_name : str;
    model : str;
    endpoint : str;
    api_key : str }.

(** Lines 17-34. *)
Definition __init__ (E : Env) (endpoint api_key model : str)
    (parallel_inference : bool) : M t :=
  client <- (if negb parallel_inference
             then c <- OpenAI E api_key endpoint ;; ret (Some c)
             else ret None) ;;
  ret {| client := client;
         parallel_inference := parallel_inference;
         model_name := model;
         model := model;
         endpoint := endpoint;
         api_key := api_key |}.

Section WithCollaborators.

Variable E : Env.

(** Lines 36-41. *)
Definition convert_np_image_to_url (self : t) (image : PILImage) : M str :=
  jpeg <- call (save_JPEG E image) ;;
  let image_base64 := base64.b64encode jpeg in
  ret (lit "data:image/jpeg;base64," ++ image_base64).

(** Lines 52-54: the assertion on the two image arguments. *)
Definition assert_image_given (image : option ndarray) (image_path : option str)
  : M unit :=
  py_assert
    (match image with Some _ => true | None => false end
     || match image_path with Some _ => true | None => false end)
    "One of 'image' or 'image_path' must be defined.".

(** Lines 55-58: [if image_path:] takes a non-empty path. *)
Definition load_image (image : option ndarray) (image_path : option str)
  : M PILImage :=
  match image_path with
  | Some (c :: path) => call (Image_open_RGB E (c :: path))
  | _ => call (Image_fromarray E image)
  end.

(** [self.client.stream], line 67. *)
Definition client_stream (self : t) : M pyobj :=
  match client self with
  | Some c =>
      match OpenAI_stream E c with
      | Some o => ret o
      | None => raise (AttributeError "stream")
      end
  | None => raise (AttributeError "stream")
  end.

(** Lines 60-67: the object the request goes through. *)
Definition select_client (self : t) : M pyobj :=
  if parallel_inference self
  then c <- OpenAI E (api_key self) (endpoint self) ;; ret (OpenAIClient c)
  else client_stream self.

(** [client.chat.completions.create(...)], lines 71-84: the request is
    recorded with the object it goes through. *)
Definition create (client : pyobj) (req : Request) : M ChatCompletion :=
  fun w =>
    let w' := {| clients := clients w; calls := calls w ++ [(client, req)] |} in
    match chat_completions_create E w client req with
    | inl e => (Err (Raised e), w')
    | inr r => (Ok r, w')
    end.

(** Lines 52-84: from the arguments to the chat completion. The parameters
    [max_new_tokens] and [add_generation_prompt] of the source are not used
    by its body and are left out. *)
Definition chat_request (self : t) (language : str)
    (image : option ndarray) (image_path : option str) : M ChatCompletion :=
  _ <- assert_image_given image image_path ;;
  image <- load_image image image_path ;;
  client <- select_client self ;;
  image_url <- convert_np_image_to_url self image ;;
  create client
    {| req_text := language;
       req_image_url := image_url;
       req_model := model self;
       req_max_tokens := 5;
       req_logprobs := true |}.

(** [chat_response.choices[0].logprobs.content[0]], line 87. *)
Definition first_logprob (chat_response : ChatCompletion) : M TokenLogprob :=
  choice <- item0 (choices chat_response) ;;
  match logprobs choice with
  | None => raise (AttributeError "content")
  | Some None => raise TypeError
  | Some (Some content) => item0 content
  end.

(** Lines 88-91. *)
Definition token_confidence (bool_response : TokenLogprob) : M float :=
  if mem (token bool_response) [lit "Yes"; lit "No"]
  then match math_exp E (logprob bool_response) with
       | Some v => ret v
       | None => raise OverflowError
       end
  else ret 0.0.

(** Lines 86-92: from the chat completion to the pair returned. *)
Definition read_response (chat_response : ChatCompletion)
  : M (option str * float) :=
  choice <- item0 (choices chat_response) ;;
  let response := message_content choice in
  bool_response <- first_logprob chat_response ;;
  confidence <- token_confidence bool_response ;;
  ret (response, confidence).

(** Lines 43-92. *)
Definition infer_with_image (self : t) (language : str)
    (image : option ndarray) (image_path : option str)
  : M (option str * float) :=
  chat_response <- chat_request self language image image_path ;;
  read_response chat_response.

(** Lines 114-123: the prompt of the token-probability mode. *)
Definition token_prompt (scene_description : str) : str :=
  let parsing_rule :=
    [ lit "You must only return a Yes or No, and not both, to any question asked. "
      ++ lit "You must not include any other symbols, information, text, justification in your answer or repeat Yes or No multiple times.";
      lit "For example, if the question is 'Is there a cat present in the Image?', the answer must only be 'Yes' or 'No'." ] in
  let parsing_rule := join [10%N] parsing_rule in
  lit "Is there a " ++ scene_description ++ lit " present in the image? "
  ++ lit "[PARSING RULE]" ++ [10%N] ++ lit ":" ++ parsing_rule.

(** Lines 139-148: the prompt of the numeric-scale mode. *)
Definition scale_prompt (scene_description : str) : str :=
  let parsing_rule :=
    lit "You must return a single float confidence value in a scale 0 to 10"
    ++ lit "For example: 0.1,1.4,2.6,3.7,4.2,5.4,6.2,7.7,8.7,9.8,10.0"
    ++ lit "Do not add any chatter."
    ++ lit "Do not say that I cannot determine. Do your best." in
  lit "How confidently can you say that the image describe "
  ++ scene_description ++ lit "."
  ++ lit "[PARSING RULE]" ++ [10%N] ++ lit ":" ++ parsing_rule.

(** Lines 129-137: the scoring of the token-probability mode, as the
    triple (confidence, probability, detected). *)
Definition score_token (response : option str) (confidence threshold : float)
  : M (float * float * bool) :=
  lowered <- match response with
             | Some r => ret (str_lower E r)
             | None => raise (AttributeError "lower")
             end ;;
  if contains (lit "yes") lowered then
    let detected := true in
    let '(confidence, detected) :=
      if confidence <=? threshold then (0.0, false) else (confidence, detected) in
    let probability := confidence in
    let probability := confidence in
    ret (confidence, probability, detected)
  else
    let detected := false in
    let probability := confidence in
    ret (confidence, probability, detected).

(** Lines 153-156, and again 158-161: the number read off the text. *)
Definition extract_confidence (confidence_str : option str) : M float :=
  match confidence_str with
  | None => raise TypeError
  | Some text =>
      match Re.search (decimal E) Re.number_re text with
      | Some group =>
          match Re.float_of_str (decimal E) group with
          | Some v => ret v
          | None => raise ValueError
          end
      | None => ret 0.10
      end
  end.

(** The handler of lines 157-161, given the binding of [confidence_str]
    at the time of the exception, if it has one. *)
Definition except_SyntaxError (confidence_str : option (option str)) : M float :=
  match confidence_str with
  | Some bound => extract_confidence bound
  | None => raise (UnboundLocalError "confidence_str")
  end.

(** Lines 149-161: the [try] statement. *)
Definition try_extract (self : t) (prompt : str) (frame_img : ndarray) : M float :=
  fun w =>
    match infer_with_image self prompt (Some frame_img) None w with
    | (Err e, w1) =>
        if is_SyntaxError e then except_SyntaxError None w1 else (Err e, w1)
    | (Ok (confidence_str, _), w1) =>
        match extract_confidence confidence_str w1 with
        | (Err e, w2) =>
            if is_SyntaxError e
            then except_SyntaxError (Some confidence_str) w2
            else (Err e, w2)
        | (Ok confidence, w2) => (Ok confidence, w2)
        end
    end.

(** Lines 162-167: the scoring of the numeric-scale mode. *)
Definition score_scale (confidence threshold : float) : float * float * bool :=
  let confidence := confidence * 1 / 10 in
  let confidence := PyFloat.min confidence 1.0 in
  let probability := confidence in
  let detected := true in
  let detected := if confidence <=? threshold then false else detected in
  (confidence, probability, detected).

(** Lines 94-176. *)
Definition detect (self : t) (frame_img : ndarray) (scene_description : str)
    (threshold : float) (confidence_as_token_probability : bool)
  : M DetectedObject :=
  '(confidence, probability, detected) <-
    (if confidence_as_token_probability then
       let prompt := token_prompt scene_description in
       '(response, confidence) <-
         infer_with_image self prompt (Some frame_img) None ;;
       score_token response confidence threshold
     else
       let prompt := scale_prompt scene_description in
       confidence <- try_extract self prompt frame_img ;;
       ret (score_scale confidence threshold)) ;;
  ret {| name := scene_description;
         detected_object.model_name := model_name self;
         confidence := PyFloat.round confidence 3;
         probability := PyFloat.round probability 3;
         number_of_detection := 1;
         is_detected := detected |}.

End WithCollaborators.

End VisionLanguageModelVLLM.

(** ** A reference runtime

    Concrete collaborators, to run the client on concrete inputs: an
    exponential computed in fixed point, ASCII text, a PIL that always
    succeeds, an SDK whose constructor takes every key and endpoint and
    whose clients have no attribute [stream], and a server with one canned
    answer. *)
Module Reference.

Open Scope Z_scope.

(** Fixed point with 128 fractional bits. *)
Definition frac_bits : Z := 128.

(** ln 2, in fixed point. *)
Definition ln2 : Z := 235865763225513294137944142764154484399.

(** The terms [r^i / i!] from rank [i] on, summed in fixed point. *)
Fixpoint taylor (fuel : nat) (i : Z) (term r : Z) : Z :=
  match fuel with
  | O => 0
  | S fuel' => term + taylor fuel' (i + 1) (term * r / ((i + 1) * 2 ^ frac_bits)) r
  end.

(** [math.exp]: [exp x = 2^k * exp r] with [x = k ln 2 + r]; an infinite
    result on a finite argument is the [OverflowError] of [math.exp]. *)
Definition exp (x : float) : option float :=
  match Prim2SF x with
  | S754_nan => Some nan
  | S754_infinity false => Some infinity
  | S754_infinity true => Some 0%float
  | S754_zero _ => Some 1%float
  | S754_finite s m e =>
      if (x <? -800)%float then Some 0%float
      else if (800 <? x)%float then None
      else
        let mag := Z.shiftl (Zpos m) (e + frac_bits) in
        let fx := if s then - mag else mag in
        let k := (2 * fx + ln2) / (2 * ln2) in
        let r := fx - k * ln2 in
        let t := taylor 60 0 (2 ^ frac_bits) r in
        let y :=
          match t with
          | Zpos n =>
              if 0 <=? k
              then PyFloat.nearest false (n * Z.to_pos (2 ^ k)) (Z.to_pos (2 ^ frac_bits))
              else PyFloat.nearest false n (Z.to_pos (2 ^ (frac_bits - k)))
          | _ => 0%float
          end in
        if (y =? infinity)%float then None else Some y
  end.

(** The image every load yields, and the bytes standing for its JPEG. *)
Definition image_of (a : ndarray) : PILImage :=
  {| im_mode := "RGB"; im_size := (1, 1)%N; im_data := nd_data a |}.

Definition blank : PILImage :=
  {| im_mode := "RGB"; im_size := (1, 1)%N; im_data := [0; 0; 0]%N |}.

Definition no_array : raised :=
  {| exc_class := "AttributeError"; exc_is_SyntaxError := false |}.

(** A server that gives the same answer to every request sent through an
    [OpenAI] client. *)
Definition server (answer : ChatCompletion) (w : World) (client : pyobj)
    (req : Request) : raised + ChatCompletion :=
  match client with
  | OpenAIClient _ => inr answer
  | Foreign _ => inl {| exc_class := "AttributeError"; exc_is_SyntaxError := false |}
  end.

Definition env (answer : ChatCompletion) : Env :=
  {| math_exp := exp;
     str_lower := ascii_lower;
     decimal := ascii_decimal;
     Image_open_RGB := fun _ => inr blank;
     Image_fromarray :=
       fun a => match a with Some a => inr (image_of a) | None => inl no_array end;
     save_JPEG := fun im => inr (im_data im);
     OpenAI_init := fun _ => None;
     OpenAI_stream := fun _ => None;
     chat_completions_create := server answer |}.

(** The same collaborators, with a server that raises on every request. *)
Definition env_raising (e : raised) : Env :=
  {| math_exp := exp;
     str_lower := ascii_lower;
     decimal := ascii_decimal;
     Image_open_RGB := fun _ => inr blank;
     Image_fromarray :=
       fun a => match a with Some a => inr (image_of a) | None => inl no_array end;
     save_JPEG := fun im => inr (im_data im);
     OpenAI_init := fun _ => None;
     OpenAI_stream := fun _ => None;
     chat_completions_create := fun _ _ _ => inl e |}.

(** The same collaborators, with an SDK whose constructor raises on every
    key and endpoint. *)
Definition env_refusing (e : raised) (answer : ChatCompletion) : Env :=
  {| math_exp := exp;
     str_lower := ascii_lower;
     decimal := ascii_decimal;
     Image_open_RGB := fun _ => inr blank;
     Image_fromarray :=
       fun a => match a with Some a => inr (image_of a) | None => inl no_array end;
     save_JPEG := fun im => inr (im_data im);
     OpenAI_init := fun _ => Some e;
     OpenAI_stream := fun _ => None;
     chat_completions_create := server answer |}.

(** [exp] behind a guard: on an argument that is zero or below, where the
    exponential lies in [0.0, 1.0], a result of the fixed-point sum outside
    that interval is replaced by 1.0. *)
Definition exp_guarded (x : float) : option float :=
  match exp x with
  | Some y =>
      Some (if (x <=? 0)%float && negb ((0 <=? y)%float && (y <=? 1)%float)
            then 1%float else y)
  | None => None
  end.

(** The collaborators of [env], with the guarded exponential. *)
Definition env_guarded (answer : ChatCompletion) : Env :=
  {| math_exp := exp_guarded;
     str_lower := ascii_lower;
     decimal := ascii_decimal;
     Image_open_RGB := fun _ => inr blank;
     Image_fromarray :=
       fun a => match a with Some a => inr (image_of a) | None => inl no_array end;
     save_JPEG := fun im => inr (im_data im);
     OpenAI_init := fun _ => None;
     OpenAI_stream := fun _ => None;
     chat_completions_create := server answer |}.

Definition syntax_error : raised :=
  {| exc_class := "SyntaxError"; exc_is_SyntaxError := true |}.

Definition connection_error : raised :=
  {| exc_class := "APIConnectionError"; exc_is_SyntaxError := false |}.

Definition invalid_url : raised :=
  {| exc_class := "InvalidURL"; exc_is_SyntaxError := false |}.

(** A completion without choices, and one whose only choice has no text. *)
Definition no_choice : ChatCompletion := {| choices := [] |}.

Definition no_text : ChatCompletion :=
  {| choices :=
       [ {| message_content := None;
            logprobs := Some (Some [ {| token := lit "Yes"; logprob := -0.1 |} ]) |} ] |}.

(** A completion with one choice: its text, and its first token with the
    log-probability of that token. *)
Definition completion (text tok : str) (p : float) : ChatCompletion :=
  {| choices :=
       [ {| message_content := Some text;
            logprobs := Some (Some [ {| token := tok; logprob := p |} ]) |} ] |}.

Definition frame : ndarray :=
  {| nd_shape := [1; 1; 3]%N; nd_data := [10; 20; 30]%N |}.

Definition nothing : World := {| clients := []; calls := [] |}.

(** [VisionLanguageModelVLLM(endpoint, "empty", model, parallel_inference)],
    in a world where nothing happened yet. *)
Definition construct (parallel_inference : bool) : result VisionLanguageModelVLLM.t * World :=
  VisionLanguageModelVLLM.__init__ (env no_choice)
    (lit "http://localhost:8000/v1") (lit "empty") (lit "OpenGVLab/InternVL2-8B")
    parallel_inference nothing.

(** The instance [construct true] makes; the world is left as it was. *)
Definition instance : VisionLanguageModelVLLM.t :=
  {| VisionLanguageModelVLLM.client := None;
     VisionLanguageModelVLLM.parallel_inference := true;
     VisionLanguageModelVLLM.model_name := lit "OpenGVLab/InternVL2-8B";
     VisionLanguageModelVLLM.model := lit "OpenGVLab/InternVL2-8B";
     VisionLanguageModelVLLM.endpoint := lit "http://localhost:8000/v1";
     VisionLanguageModelVLLM.api_key := lit "empty" |}.

(** The instance [construct false] makes, and the world it leaves: the
    client of the instance is the one client there is. *)
Definition shared_instance : VisionLanguageModelVLLM.t :=
  {| VisionLanguageModelVLLM.client := Some 0%nat;
     VisionLanguageModelVLLM.parallel_inference := false;
     VisionLanguageModelVLLM.model_name := lit "OpenGVLab/InternVL2-8B";
     VisionLanguageModelVLLM.model := lit "OpenGVLab/InternVL2-8B";
     VisionLanguageModelVLLM.endpoint := lit "http://localhost:8000/v1";
     VisionLanguageModelVLLM.api_key := lit "empty" |}.

Definition one_client : World :=
  {| clients :=
       [ {| cfg_api_key := lit "empty";
            cfg_base_url := lit "http://localhost:8000/v1" |} ];
     calls := [] |}.

(** The text "7.5 - fairly confident", with its em dash. *)
Definition fairly_confident : str :=
  lit "7.5 " ++ [8212%N] ++ lit " fairly confident".

(** [detect] on a fresh instance, against a server with a canned answer. *)
Definition run_detect (parallel_inference : bool) (answer : ChatCompletion)
    (scene_description : str) (threshold : float)
    (confidence_as_token_probability : bool)
  : result detected_object.DetectedObject * World :=
  match construct parallel_inference with
  | (Ok self, w) =>
      VisionLanguageModelVLLM.detect (env answer) self frame scene_description
        threshold confidence_as_token_probability w
  | (Err e, w) => (Err e, w)
  end.

(** The four fields of the result that the scoring decides, when [detect]
    returns: confidence, probability, number_of_detection, is_detected. *)
Definition outcome (r : result detected_object.DetectedObject * World)
  : option (float * float * Z * bool) :=
  match fst r with
  | Ok obj =>
      Some (detected_object.confidence obj, detected_object.probability obj,
            detected_object.number_of_detection obj, detected_object.is_detected obj)
  | Err _ => None
  end.

(** The object [detect] returns on the description "cat", up to the two
    fields that vary. *)
Definition detected (confidence : float) (is_detected : bool)
  : detected_object.DetectedObject :=
  {| detected_object.name := lit "cat";
     detected_object.model_name := lit "OpenGVLab/InternVL2-8B";
     detected_object.confidence := confidence;
     detected_object.probability := confidence;
     detected_object.number_of_detection := 1;
     detected_object.is_detected := is_detected |}.

(** The world after [instance] sent one request with the given prompt. *)
Definition asked (prompt : str) : World :=
  {| clients :=
       [ {| cfg_api_key := lit "empty";
            cfg_base_url := lit "http://localhost:8000/v1" |} ];
     calls :=
       [ (OpenAIClient 0,
          {| req_text := prompt;
             req_image_url :=
               lit "data:image/jpeg;base64," ++ base64.b64encode [10; 20; 30]%N;
             req_model := lit "OpenGVLab/InternVL2-8B";
             req_max_tokens := 5;
             req_logprobs := true |}) ] |}.

End Reference.

(** ** Ranges of binary64 numbers *)
Module Range.

Open Scope float_scope.

(** Neither negative nor NaN, on the specification side. *)
Definition nonneg (x : spec_float) : bool :=
  match x with
  | S754_zero false | S754_infinity false | S754_finite false _ _ => true
  | _ => false
  end.

(** The numbers of the unit interval, on the specification side: a zero, or
    a mantissa and an exponent that make at most one. *)
Definition unit_sf (x : spec_float) : Prop :=
  match x with
  | S754_zero _ => True
  | S754_finite false m e =>
      (Zpos m < 2 ^ 53 /\ e <= -53)%Z \/ (e = -52 /\ Zpos m <= 2 ^ 52)%Z
  | _ => False
  end.

(** In [0.0, 1.0] and rounded to three decimals: rounding again changes
    nothing. *)
Definition unit_rounded (x : float) : Prop :=
  (0 <=? x) = true /\ (x <=? 1) = true /\ PyFloat.round x 3 = x.

(** The collaborators deal in log-probabilities: every log-probability the
    server sends is zero or below, and [math.exp] takes a number that is zero
    or below to a number of [0.0, 1.0], as the exponential does. *)
Definition log_probabilities (E : Env) : Prop :=
  (forall w client req r choice content first,
     chat_completions_create E w client req = inr r ->
     In choice (choices r) ->
     logprobs choice = Some (Some content) ->
     In first content ->
     (logprob first <=? 0) = true)
  /\ (forall p v,
        (p <=? 0) = true -> math_exp E p = Some v ->
        (0 <=? v) = true /\ (v <=? 1) = true).

(** The check of [unit_rounded] on the float nearest to [n / 1000]. *)
Definition thousandth_ok (n : positive) : bool :=
  let t := PyFloat.nearest false n 1000 in
  (0 <=? t) && (t <=? 1) && Leibniz.eqb (PyFloat.round t 3) t.

End Range.

(** * Facts

    ** Binary64 arithmetic, through its specification *)
Module FloatFacts.

Import Range.

Lemma SFcompare_antisym x y :
  SFcompare y x = match SFcompare x y with Some c => Some (CompOpp c) | None => None end.
Proof.
  destruct x as [sx|sx| |sx mx ex], y as [sy|sy| |sy my ey]; simpl;
    try destruct sx; try destruct sy; try reflexivity;
    rewrite (Z.compare_antisym ex ey); destruct (ex ?= ey)%Z; simpl; try reflexivity;
    rewrite (Pos.compare_cont_antisym mx my Eq); simpl;
    try reflexivity; now rewrite CompOpp_involutive.
Qed.

Lemma ltb_not_leb (x y : float) : (x <? y)%float = true -> (y <=? x)%float = false.
Proof.
  rewrite FloatAxioms.ltb_spec, FloatAxioms.leb_spec. unfold SFltb, SFleb.
  rewrite (SFcompare_antisym (Prim2SF x) (Prim2SF y)).
  destruct (SFcompare (Prim2SF x) (Prim2SF y)) as [[]|]; simpl; congruence.
Qed.

Lemma shr_1_nonneg mrs : (0 <= shr_m mrs)%Z -> (0 <= shr_m (shr_1 mrs))%Z.
Proof.
  destruct mrs as [m r s]; simpl. destruct m as [|[p|p|]|[p|p|]]; simpl; lia.
Qed.

Lemma iter_shr_1_nonneg p : forall mrs,
  (0 <= shr_m mrs)%Z -> (0 <= shr_m (iter_pos shr_1 p mrs))%Z.
Proof.
  induction p as [p IH|p IH|]; intros mrs H; simpl.
  - apply IH, IH, shr_1_nonneg, H.
  - apply IH, IH, H.
  - apply shr_1_nonneg, H.
Qed.

Lemma shr_nonneg mrs e n : (0 <= shr_m mrs)%Z -> (0 <= shr_m (fst (shr mrs e n)))%Z.
Proof.
  intros H. unfold shr. destruct n; simpl; auto using iter_shr_1_nonneg.
Qed.

Lemma shr_record_of_loc_m m l : shr_m (shr_record_of_loc m l) = m.
Proof. destruct l as [|[]]; reflexivity. Qed.

Lemma shr_fexp_nonneg pr em m e l :
  (0 <= m)%Z -> (0 <= shr_m (fst (shr_fexp pr em m e l)))%Z.
Proof.
  intros H. unfold shr_fexp. apply shr_nonneg. now rewrite shr_record_of_loc_m.
Qed.

Lemma round_nearest_even_nonneg m l : (0 <= m)%Z -> (0 <= round_nearest_even m l)%Z.
Proof.
  intros H. unfold round_nearest_even. destruct l as [|[]]; try lia.
  destruct (Z.even m); lia.
Qed.

Lemma binary_round_aux_nonneg pr em m e l :
  (0 <= m)%Z -> nonneg (binary_round_aux pr em false m e l) = true.
Proof.
  intros H. unfold binary_round_aux.
  pose proof (shr_fexp_nonneg pr em m e l H) as H1.
  destruct (shr_fexp pr em m e l) as [mrs' e']. simpl in H1.
  pose proof (shr_fexp_nonneg pr em _ e' loc_Exact
                (round_nearest_even_nonneg _ (loc_of_shr_record mrs') H1)) as H2.
  destruct (shr_fexp pr em _ e' loc_Exact) as [mrs'' e'']. simpl in H2.
  destruct (shr_m mrs''); try lia; simpl; trivial.
  destruct (e'' <=? em - pr)%Z; reflexivity.
Qed.

Lemma binary_round_nonneg pr em m e : nonneg (binary_round pr em false m e) = true.
Proof.
  unfold binary_round. destruct (shl_align _ _ _) as [mz ez].
  apply binary_round_aux_nonneg. lia.
Qed.

Lemma SFmul_nonneg pr em x y :
  nonneg x = true -> nonneg y = true -> y <> S754_infinity false -> y <> S754_zero false ->
  nonneg (SFmul pr em x y) = true.
Proof.
  destruct x as [[]|[]| |[] mx ex], y as [[]|[]| |[] my ey]; simpl; try congruence; intros _ _ _ _.
  apply binary_round_aux_nonneg. lia.
Qed.

Lemma SFdiv_nonneg pr em x my ey :
  nonneg x = true -> nonneg (SFdiv pr em x (S754_finite false my ey)) = true.
Proof.
  destruct x as [[]|[]| |[] mx ex]; simpl; try congruence; intros _.
  unfold SFdiv_core_binary.
  set (s := (ex - ey - _)%Z).
  set (m' := match s with Zpos _ => _ | Z0 => _ | Zneg _ => _ end).
  assert (Hm : (0 <= m')%Z).
  { subst m'. destruct s; try lia. apply Z.shiftl_nonneg. lia. }
  pose proof (Z.div_pos m' (Zpos my) Hm ltac:(lia)) as Hq.
  unfold Z.div in Hq. destruct (Z.div_eucl m' (Zpos my)) as [q r]. simpl in Hq.
  now apply binary_round_aux_nonneg.
Qed.

Lemma Prim2SF_SF2Prim_nonneg x : nonneg x = true -> nonneg (Prim2SF (SF2Prim x)) = true.
Proof.
  destruct x as [[]|[]| |[] m e]; simpl; try congruence; intros _; try reflexivity.
  unfold Z.ldexp. rewrite ldshiftexp_spec, of_uint63_spec.
  match goal with |- context [binary_normalize _ _ ?t _ _] => set (z := t) end.
  assert (Hz : (0 <= z)%Z) by (subst z; apply Uint63.to_Z_bounded).
  destruct z as [|p|p]; simpl; try lia; try reflexivity.
  pose proof (binary_round_nonneg prec emax p 0) as Hb.
  destruct (binary_round prec emax false p 0) as [[]|[]| |[] m1 e1]; simpl in *; try congruence.
  apply binary_round_nonneg.
Qed.



Lemma digits2_pos_bound m : (Zpos m < 2 ^ Zpos (digits2_pos m))%Z.
Proof.
  induction m as [m IH|m IH|]; simpl digits2_pos;
    try (rewrite Pos2Z.inj_succ, Z.pow_succ_r by lia; lia).
  reflexivity.
Qed.

Lemma valid_mantissa_bound s m e :
  valid_binary (S754_finite s m e) = true -> (Zpos m < 2 ^ 53)%Z.
Proof.
  intros H. simpl in H. unfold bounded, canonical_mantissa, fexp in H.
  apply andb_prop in H. destruct H as [H _]. apply Z.eqb_eq in H.
  pose proof (digits2_pos_bound m) as Hd.
  assert (Hle : (Zpos (digits2_pos m) <= 53)%Z) by (unfold prec in H; lia).
  eapply Z.lt_le_trans; [exact Hd|]. apply Z.pow_le_mono_r; lia.
Qed.

Lemma compare_cont_core m n : PosDef.Pos.compare_cont Eq m n = Pos.compare m n.
Proof. reflexivity. Qed.

Lemma Prim2SF_zero : Prim2SF 0 = S754_zero false.
Proof. vm_compute. reflexivity. Qed.

Lemma Prim2SF_one : Prim2SF 1 = S754_finite false 4503599627370496 (-52).
Proof. vm_compute. reflexivity. Qed.

Lemma unit_interval (c : float) :
  (0 <=? c)%float = true -> (c <=? 1)%float = true -> unit_sf (Prim2SF c).
Proof.
  rewrite !FloatAxioms.leb_spec.
  pose proof (Prim2SF_valid c) as Hv.
  rewrite Prim2SF_zero, Prim2SF_one.
  destruct (Prim2SF c) as [s|s| |s m e]; unfold SFleb; cbn [SFcompare unit_sf];
    try discriminate; trivial.
  - destruct s; discriminate.
  - destruct s; try discriminate. intros _.
    apply valid_mantissa_bound in Hv.
    destruct (Z.compare_spec e (-52)) as [He|He|He]; try discriminate.
    + intros H. right. split; trivial.
      rewrite compare_cont_core in H.
      destruct (Pos.compare_spec m 4503599627370496) as [Hm|Hm|Hm]; try discriminate.
      * subst m. apply Z.leb_le. vm_compute. reflexivity.
      * apply Z.lt_le_incl. change (2 ^ 52)%Z with (Zpos 4503599627370496). exact Hm.
    + intros _. left. split; trivial. lia.
Qed.

Lemma scaled_int_unit m e :
  (Zpos m < 2 ^ 53 /\ e <= -53)%Z \/ (e = -52 /\ Zpos m <= 2 ^ 52)%Z ->
  (0 <= PyFloat.scaled_int 3 m e <= 1000)%Z.
Proof.
  intros H. unfold PyFloat.scaled_int.
  change (Zpos (PyFloat.pow10 3)) with 1000%Z.
  assert (He : (e < 0)%Z) by lia.
  destruct (Z.leb_spec 0 e) as [?|_]; try lia.
  set (d := (2 ^ (- e))%Z).
  assert (Hd : (0 < d)%Z) by (subst d; apply Z.pow_pos_nonneg; lia).
  assert (Hmd : (Zpos m <= d)%Z).
  { destruct H as [[Hm He']|[He' Hm]].
    - apply Z.lt_le_incl. eapply Z.lt_le_trans; [exact Hm|].
      subst d. apply Z.pow_le_mono_r; lia.
    - subst d e. exact Hm. }
  set (n := (Zpos m * 1000)%Z).
  pose proof (Z.div_mod n d ltac:(lia)) as Hdm.
  pose proof (Z.mod_pos_bound n d Hd) as Hr.
  assert (Hq0 : (0 <= n / d)%Z) by (apply Z.div_pos; subst n; lia).
  assert (Hq : (n / d <= 1000)%Z).
  { apply Z.div_le_upper_bound; subst n; lia. }
  assert (Hq1 : (n / d = 1000 -> n mod d = 0)%Z) by (subst n; nia).
  destruct (Z.compare_spec (2 * (n mod d)) d) as [Hc|Hc|Hc]; try lia.
  destruct (Z.even (n / d)); lia.
Qed.

Lemma mul_pow52 m : PosDef.Pos.mul m 4503599627370496 = Pos.iter xO m 52.
Proof. rewrite <- (Pos.mul_comm 4503599627370496 m). reflexivity. Qed.

Lemma digits_pow52 m :
  Zpos (digits2_pos (Pos.iter xO m 52)) = (Zpos (digits2_pos m) + 52)%Z.
Proof.
  cbn [Pos.iter digits2_pos]. rewrite !Pos2Z.inj_succ. lia.
Qed.

Lemma shr_pow52 m :
  iter_pos shr_1 52 {| shr_m := Zpos (Pos.iter xO m 52); shr_r := false; shr_s := false |}
  = {| shr_m := Zpos m; shr_r := false; shr_s := false |}.
Proof. reflexivity. Qed.

Lemma SFmul_one_finite s m e :
  valid_binary (S754_finite s m e) = true ->
  SF64mul (S754_finite s m e) (S754_finite false 4503599627370496 (-52)) = S754_finite s m e.
Proof.
  intros Hv. simpl in Hv. unfold bounded, canonical_mantissa in Hv.
  apply andb_prop in Hv. destruct Hv as [Hc Hb]. apply Z.eqb_eq in Hc.
  unfold SF64mul, SFmul. rewrite xorb_false_r, mul_pow52.
  unfold binary_round_aux, shr_fexp.
  cbn [Zdigits2 shr_record_of_loc]. rewrite digits_pow52.
  replace (Z.pos (digits2_pos m) + 52 + (e + -52))%Z with (Z.pos (digits2_pos m) + e)%Z by lia.
  rewrite Hc.
  replace (e - (e + -52))%Z with 52%Z by lia.
  unfold shr at 1. rewrite shr_pow52.
  cbn [shr_m loc_of_shr_record round_nearest_even Zdigits2].
  replace (e + -52 + 52)%Z with e by lia.
  rewrite Hc, Z.sub_diag. cbn [shr shr_m]. now rewrite Hb.
Qed.

Lemma SFmul_one x :
  valid_binary x = true ->
  SF64mul x (S754_finite false 4503599627370496 (-52)) = x.
Proof.
  destruct x as [s|s| |s m e]; intros Hv.
  - unfold SF64mul, SFmul. now rewrite xorb_false_r.
  - unfold SF64mul, SFmul. now rewrite xorb_false_r.
  - reflexivity.
  - now apply SFmul_one_finite.
Qed.

Lemma mul_one (x : float) : (x * 1)%float = x.
Proof.
  apply Prim2SF_inj. rewrite mul_spec, Prim2SF_one. apply SFmul_one, Prim2SF_valid.
Qed.

Lemma Prim2SF_ten : Prim2SF 10 = S754_finite false 5629499534213120 (-49).
Proof. vm_compute. reflexivity. Qed.

Lemma nonneg_leb_zero (x : float) :
  nonneg (Prim2SF x) = true -> (0 <=? x)%float = true.
Proof.
  rewrite FloatAxioms.leb_spec, Prim2SF_zero.
  destruct (Prim2SF x) as [[]|[]| |[] m e]; unfold SFleb; simpl; congruence.
Qed.

Lemma div_ten_nonneg (x : float) :
  nonneg (Prim2SF x) = true -> nonneg (Prim2SF (x / 10)%float) = true.
Proof.
  intros H. rewrite div_spec, Prim2SF_ten. now apply SFdiv_nonneg.
Qed.

Lemma nearest_nonneg n d : nonneg (Prim2SF (PyFloat.nearest false n d)) = true.
Proof.
  unfold PyFloat.nearest. apply Prim2SF_SF2Prim_nonneg.
  unfold SF64div. now apply SFdiv_nonneg.
Qed.

(** The clamp [min(q, 1.0)] of a number that is neither negative nor NaN
    lies in the unit interval. *)
Lemma min_one_unit (q : float) :
  nonneg (Prim2SF q) = true ->
  (0 <=? PyFloat.min q 1)%float = true /\ (PyFloat.min q 1 <=? 1)%float = true.
Proof.
  intros H. unfold PyFloat.min.
  destruct (1 <? q)%float eqn:Hlt.
  - split; vm_compute; reflexivity.
  - split; [now apply nonneg_leb_zero|].
    rewrite FloatAxioms.ltb_spec in Hlt. rewrite FloatAxioms.leb_spec.
    unfold SFltb in Hlt. unfold SFleb.
    rewrite (SFcompare_antisym (Prim2SF 1) (Prim2SF q)).
    rewrite Prim2SF_one in *.
    destruct (Prim2SF q) as [[]|[]| |[] m e]; try discriminate H; try reflexivity;
      try discriminate Hlt.
    destruct (SFcompare (S754_finite false 4503599627370496 (-52)) (S754_finite false m e))
      as [[]|] eqn:Hc; try reflexivity; try discriminate Hlt.
    discriminate Hc.
Qed.

Lemma thousandths_table :
  forallb thousandth_ok (map Pos.of_nat (seq 1 1000)) = true.
Proof. vm_compute. reflexivity. Qed.

Lemma thousandth_unit_rounded n :
  (Zpos n <= 1000)%Z -> unit_rounded (PyFloat.nearest false n 1000).
Proof.
  intros Hn. pose proof thousandths_table as T.
  rewrite forallb_forall in T.
  assert (Hok : thousandth_ok n = true).
  { apply T. apply in_map_iff. exists (Pos.to_nat n). split.
    - apply Pos2Nat.id.
    - apply in_seq. lia. }
  unfold thousandth_ok in Hok.
  apply andb_prop in Hok. destruct Hok as [Hok H3].
  apply andb_prop in Hok. destruct Hok as [H1 H2].
  apply Leibniz.eqb_spec in H3. repeat split; assumption.
Qed.

Lemma zero_unit_rounded : unit_rounded 0.
Proof. repeat split; vm_compute; reflexivity. Qed.

(** Rounding a number of the unit interval to three decimals stays in the
    unit interval and is stable. *)
Lemma round_unit (c : float) :
  (0 <=? c)%float = true -> (c <=? 1)%float = true ->
  unit_rounded (PyFloat.round c 3).
Proof.
  intros H0 H1. pose proof (unit_interval c H0 H1) as U.
  unfold PyFloat.round.
  destruct (Prim2SF c) as [s|s| |s m e] eqn:Ec; simpl in U; try contradiction.
  - repeat split; trivial. unfold PyFloat.round. now rewrite Ec.
  - destruct s; try contradiction.
    pose proof (scaled_int_unit m e U) as Hs.
    destruct (PyFloat.scaled_int 3 m e) as [|n|n]; try lia.
    + apply zero_unit_rounded.
    + change (PyFloat.pow10 3) with 1000%positive.
      apply thousandth_unit_rounded. lia.
Qed.

End FloatFacts.

(** ** The pattern [\d+(\.\d+)?] finds the first decimal number *)
Module ReFacts.

Import Re.

Section WithDatabase.

Variable decimal : N -> option N.

#[local] Abbreviation is_digit := (is_digit decimal).
#[local] Abbreviation take_digits := (take_digits decimal).
#[local] Abbreviation drop_digits := (drop_digits decimal).
#[local] Abbreviation digits_then := (digits_then decimal).
#[local] Abbreviation after_number := (after_number decimal).

Lemma take_drop_digits s : take_digits s ++ drop_digits s = s.
Proof.
  induction s as [|c s IH]; simpl; trivial.
  destruct (is_digit c); simpl; congruence.
Qed.

Lemma rmatch_plus_digit s k :
  rmatch decimal (Plus Digit) s k = digits_then k (List.length s) s.
Proof.
  simpl. generalize (List.length s). intros fuel. revert s.
  induction fuel as [|fuel IH]; intros [|c s]; simpl; trivial;
    destruct (is_digit c); trivial.
  now rewrite IH.
Qed.

(** What is left of the text after the digits at its front. *)
Lemma digits_then_greedy k :
  (forall t, k t <> None) ->
  forall s c fuel, is_digit c = true -> (List.length s <= fuel)%nat ->
  digits_then k fuel (c :: s) = k (drop_digits (c :: s)).
Proof.
  intros Hk. induction s as [|c2 s IH]; intros c fuel Hc Hfuel.
  - simpl. rewrite Hc. destruct fuel; reflexivity.
  - simpl in Hfuel. destruct fuel as [|fuel]; [lia|].
    change (digits_then k (S fuel) (c :: c2 :: s))
      with (if is_digit c
            then match digits_then k fuel (c2 :: s) with
                 | Some rest => Some rest
                 | None => k (c2 :: s)
                 end
            else None).
    change (drop_digits (c :: c2 :: s))
      with (if is_digit c then drop_digits (c2 :: s) else c :: c2 :: s).
    rewrite Hc.
    destruct (is_digit c2) eqn:Hc2.
    + rewrite (IH c2 fuel Hc2) by lia.
      destruct (k (drop_digits (c2 :: s))) eqn:Hr; trivial.
      now apply Hk in Hr.
    + simpl. now rewrite Hc2.
Qed.

Lemma digits_then_no_digit k fuel s :
  match s with c :: _ => is_digit c = false | [] => True end ->
  digits_then k fuel s = None.
Proof.
  destruct s as [|c s]; simpl; trivial. now intros ->.
Qed.

Lemma number_at_after s : number_at decimal s ++ after_number s = s.
Proof.
  unfold number_at, after_number.
  pose proof (take_drop_digits s) as Hs.
  destruct (drop_digits s) as [|c t] eqn:Hd; trivial.
  destruct (N.eqb_spec c 46) as [->|Hne].
  - pose proof (take_drop_digits t) as Ht.
    destruct (take_digits t) as [|d fp] eqn:Hf; trivial.
    rewrite <- app_assoc. simpl. simpl in Ht. rewrite Ht. exact Hs.
  - destruct c as [|p]; trivial.
    do 6 (destruct p as [p|p|]; trivial); congruence.
Qed.

Lemma fraction_match t :
  rmatch decimal (Cat (Chr 46) (Plus Digit)) t Some =
  match t with
  | 46%N :: u =>
      match take_digits u with
      | [] => None
      | _ => Some (drop_digits u)
      end
  | _ => None
  end.
Proof.
  destruct t as [|c u]; trivial.
  change (rmatch decimal (Cat (Chr 46) (Plus Digit)) (c :: u) Some)
    with (if N.eqb c 46 then rmatch decimal (Plus Digit) u Some else None).
  destruct (N.eqb_spec c 46) as [->|Hne].
  - rewrite rmatch_plus_digit. destruct u as [|d u]; trivial.
    destruct (is_digit d) eqn:Hd.
    + rewrite digits_then_greedy by (trivial; first [congruence | simpl; lia]).
      simpl. now rewrite Hd.
    + rewrite digits_then_no_digit by exact Hd. simpl. now rewrite Hd.
  - destruct c as [|p]; trivial.
    do 6 (destruct p as [p|p|]; trivial); congruence.
Qed.

Lemma number_match c s :
  is_digit c = true ->
  rmatch decimal number_re (c :: s) Some = Some (after_number (c :: s)).
Proof.
  intros Hc. unfold number_re.
  change (rmatch decimal (Cat (Plus Digit) (Opt (Cat (Chr 46) (Plus Digit)))) (c :: s) Some)
    with (rmatch decimal (Plus Digit) (c :: s)
            (fun s1 => match rmatch decimal (Cat (Chr 46) (Plus Digit)) s1 Some with
                       | Some rest => Some rest
                       | None => Some s1
                       end)).
  rewrite rmatch_plus_digit.
  rewrite digits_then_greedy; trivial.
  - rewrite fraction_match. unfold after_number.
    destruct (drop_digits (c :: s)) as [|d t]; trivial.
    destruct d as [|p]; trivial.
    do 6 (destruct p as [p|p|]; trivial).
    destruct (take_digits t); trivial.
  - intros t. destruct (rmatch decimal (Cat (Chr 46) (Plus Digit)) t Some); discriminate.
  - simpl. lia.
Qed.

Lemma no_number_match s :
  match s with c :: _ => is_digit c = false | [] => True end ->
  rmatch decimal number_re s Some = None.
Proof.
  intros H. unfold number_re.
  change (rmatch decimal (Cat (Plus Digit) (Opt (Cat (Chr 46) (Plus Digit)))) s Some)
    with (rmatch decimal (Plus Digit) s
            (fun s1 => match rmatch decimal (Cat (Chr 46) (Plus Digit)) s1 Some with
                       | Some rest => Some rest
                       | None => Some s1
                       end)).
  rewrite rmatch_plus_digit. now apply digits_then_no_digit.
Qed.

Lemma firstn_front {A} (a b : list A) :
  firstn (List.length (a ++ b) - List.length b) (a ++ b) = a.
Proof.
  rewrite length_app, Nat.add_sub.
  rewrite firstn_app, Nat.sub_diag, firstn_all. simpl. apply app_nil_r.
Qed.

(** [re.search] with the pattern of [detect] returns the first decimal
    number of the text, as the specification words it. *)
Lemma search_first_decimal_number s :
  search decimal number_re s = spec_first_decimal_number decimal s.
Proof.
  induction s as [|c s IH]; trivial.
  change (search decimal number_re (c :: s))
    with (match rmatch decimal number_re (c :: s) Some with
          | Some rest =>
              Some (firstn (List.length (c :: s) - List.length rest) (c :: s))
          | None => search decimal number_re s
          end).
  change (spec_first_decimal_number decimal (c :: s))
    with (if is_digit c then Some (number_at decimal (c :: s))
          else spec_first_decimal_number decimal s).
  destruct (is_digit c) eqn:Hc.
  - rewrite number_match by exact Hc.
    rewrite <- (number_at_after (c :: s)) at 1 3.
    now rewrite firstn_front.
  - rewrite no_number_match by exact Hc. exact IH.
Qed.

Lemma no_digit_no_number s :
  (forall c, In c s -> decimal c = None) -> spec_first_decimal_number decimal s = None.
Proof.
  induction s as [|c s IH]; intros H; simpl; trivial.
  unfold Re.is_digit. rewrite (H c) by now left.
  apply IH. intros d Hd. apply H. now right.
Qed.

End WithDatabase.

End ReFacts.

(** ** [float] on the numbers that [re.search] finds *)
Module FloatOfStr.

Import Re Range.

Section WithDatabase.

Variable decimal : N -> option N.

(** The full stop is not a decimal digit. *)
Hypothesis full_stop : decimal 46 = None.

#[local] Abbreviation is_digit := (is_digit decimal).
#[local] Abbreviation take_digits := (take_digits decimal).

Lemma take_digits_digits s : Forall (fun c => is_digit c = true) (take_digits s).
Proof.
  induction s as [|c s IH]; simpl; [constructor|].
  destruct (is_digit c) eqn:Hc; constructor; assumption.
Qed.

Lemma digit_not_full_stop c : is_digit c = true -> N.eqb c 46 = false.
Proof.
  intros Hc. destruct (N.eqb_spec c 46) as [->|]; trivial.
  unfold Re.is_digit in Hc. now rewrite full_stop in Hc.
Qed.

Lemma split_point_digits ds :
  Forall (fun c => is_digit c = true) ds -> split_point ds = (ds, None).
Proof.
  induction 1 as [|c ds Hc _ IH]; simpl; trivial.
  now rewrite (digit_not_full_stop c Hc), IH.
Qed.

Lemma split_point_fraction ip fp :
  Forall (fun c => is_digit c = true) ip ->
  split_point (ip ++ 46%N :: fp) = (ip, Some fp).
Proof.
  induction 1 as [|c ds Hc _ IH]; simpl; trivial.
  now rewrite (digit_not_full_stop c Hc), IH.
Qed.

Lemma digits_value_digits ds :
  Forall (fun c => is_digit c = true) ds ->
  forall acc, exists n, digits_value decimal acc ds = Some n.
Proof.
  induction 1 as [|c ds Hc _ IH]; intros acc; simpl.
  - now exists acc.
  - unfold Re.is_digit in Hc. destruct (decimal c) as [v|]; [apply IH|discriminate].
Qed.

Lemma decimal_value_digits ip fp :
  Forall (fun c => is_digit c = true) ip ->
  Forall (fun c => is_digit c = true) fp ->
  ip <> [] ->
  exists v, decimal_value decimal ip fp = Some v.
Proof.
  intros Hip Hfp Hne. unfold decimal_value.
  destruct (ip ++ fp) as [|c ds] eqn:Hds.
  - apply app_eq_nil in Hds. now destruct Hds.
  - destruct (digits_value_digits (ip ++ fp) (proj2 (Forall_app _ ip fp) (conj Hip Hfp)) 0%N)
      as [n Hn].
    rewrite Hds in Hn. rewrite Hn. destruct n; eauto.
Qed.

(** [float] accepts the number that a string starts with. *)
Lemma float_of_number c s :
  is_digit c = true ->
  exists v, float_of_str decimal (number_at decimal (c :: s)) = Some v.
Proof.
  intros Hc. unfold number_at, float_of_str.
  pose proof (take_digits_digits (c :: s)) as Hip.
  assert (Hne : take_digits (c :: s) <> []) by (simpl; rewrite Hc; discriminate).
  destruct (Re.drop_digits decimal (c :: s)) as [|d t].
  - rewrite split_point_digits by exact Hip.
    apply decimal_value_digits; trivial.
  - assert (Hplain : exists v,
               match split_point (take_digits (c :: s)) with
               | (ip, None) => decimal_value decimal ip []
               | (ip, Some fp) => decimal_value decimal ip fp
               end = Some v).
    { rewrite split_point_digits by exact Hip.
      apply decimal_value_digits; trivial. }
    destruct d as [|p]; trivial.
    do 6 (destruct p as [p|p|]; trivial).
    pose proof (take_digits_digits t) as Hfp.
    destruct (take_digits t) as [|f fp]; trivial.
    rewrite split_point_fraction by exact Hip.
    apply decimal_value_digits; trivial.
Qed.

(** [float] accepts the first decimal number of a text. *)
Lemma float_of_first_decimal_number text number :
  spec_first_decimal_number decimal text = Some number ->
  exists v, float_of_str decimal number = Some v.
Proof.
  induction text as [|c s IH]; [discriminate|].
  change (spec_first_decimal_number decimal (c :: s))
    with (if is_digit c then Some (number_at decimal (c :: s))
          else spec_first_decimal_number decimal s).
  destruct (is_digit c) eqn:Hc; [|exact IH].
  intros [= <-]. now apply float_of_number.
Qed.

End WithDatabase.

(** Whatever [float] returns on plain decimal text is neither negative nor
    NaN. *)
Lemma float_of_str_nonneg decimal s v :
  float_of_str decimal s = Some v -> nonneg (Prim2SF v) = true.
Proof.
  unfold float_of_str. intros H.
  assert (Hv : forall ip fp,
             decimal_value decimal ip fp = Some v -> nonneg (Prim2SF v) = true).
  { intros ip fp. unfold decimal_value. destruct (ip ++ fp) as [|c ds]; [discriminate|].
    destruct (digits_value decimal 0 (c :: ds)) as [[|n]|]; try discriminate.
    - intros [= <-]. reflexivity.
    - intros [= <-]. apply FloatFacts.nearest_nonneg. }
  destruct (split_point s) as [ip [fp|]]; eapply Hv; exact H.
Qed.

(** The first decimal number and its value depend on the database through
    the characters of the text only. *)
Section TwoDatabases.

Variables d1 d2 : N -> option N.

Lemma is_digit_ext c : d1 c = d2 c -> is_digit d1 c = is_digit d2 c.
Proof. unfold is_digit. now intros ->. Qed.

Lemma take_digits_ext s :
  (forall c, In c s -> d1 c = d2 c) -> take_digits d1 s = take_digits d2 s.
Proof.
  induction s as [|c s IH]; intros H; simpl; trivial.
  rewrite (is_digit_ext c) by (apply H; now left).
  rewrite IH by (intros; apply H; now right). reflexivity.
Qed.

Lemma drop_digits_ext s :
  (forall c, In c s -> d1 c = d2 c) -> drop_digits d1 s = drop_digits d2 s.
Proof.
  induction s as [|c s IH]; intros H; simpl; trivial.
  rewrite (is_digit_ext c) by (apply H; now left).
  rewrite IH by (intros; apply H; now right). reflexivity.
Qed.

Lemma drop_digits_incl s c : In c (drop_digits d2 s) -> In c s.
Proof.
  intros H. rewrite <- (ReFacts.take_drop_digits d2 s). apply in_or_app. now right.
Qed.

Lemma number_at_ext s :
  (forall c, In c s -> d1 c = d2 c) -> number_at d1 s = number_at d2 s.
Proof.
  intros H. unfold number_at.
  rewrite (take_digits_ext s H), (drop_digits_ext s H).
  destruct (drop_digits d2 s) as [|d t] eqn:Hd; trivial.
  rewrite (take_digits_ext t); trivial.
  intros c Hc. apply H. apply drop_digits_incl. rewrite Hd. now right.
Qed.

Lemma first_decimal_number_ext s :
  (forall c, In c s -> d1 c = d2 c) ->
  spec_first_decimal_number d1 s = spec_first_decimal_number d2 s.
Proof.
  induction s as [|c s IH]; intros H; trivial.
  change (spec_first_decimal_number d1 (c :: s))
    with (if is_digit d1 c then Some (number_at d1 (c :: s))
          else spec_first_decimal_number d1 s).
  change (spec_first_decimal_number d2 (c :: s))
    with (if is_digit d2 c then Some (number_at d2 (c :: s))
          else spec_first_decimal_number d2 s).
  rewrite (is_digit_ext c) by (apply H; now left).
  rewrite (number_at_ext (c :: s) H).
  rewrite IH by (intros; apply H; now right). reflexivity.
Qed.

Lemma first_decimal_number_incl s number c :
  spec_first_decimal_number d2 s = Some number -> In c number -> In c s.
Proof.
  induction s as [|a s IH]; [discriminate|].
  change (spec_first_decimal_number d2 (a :: s))
    with (if is_digit d2 a then Some (number_at d2 (a :: s))
          else spec_first_decimal_number d2 s).
  destruct (is_digit d2 a).
  - intros [= <-] Hc. rewrite <- (ReFacts.number_at_after d2 (a :: s)).
    apply in_or_app. now left.
  - intros Hn Hc. right. now apply IH.
Qed.

Lemma digits_value_ext ds :
  (forall c, In c ds -> d1 c = d2 c) ->
  forall acc, digits_value d1 acc ds = digits_value d2 acc ds.
Proof.
  induction ds as [|c ds IH]; intros H acc; simpl; trivial.
  rewrite (H c) by now left.
  destruct (d2 c); trivial. apply IH. intros; apply H; now right.
Qed.

Lemma split_point_incl s :
  forall c, In c (fst (split_point s)
                  ++ match snd (split_point s) with Some fp => fp | None => [] end) ->
            In c s.
Proof.
  induction s as [|a s IH]; simpl; trivial.
  destruct (N.eqb a 46).
  - simpl. intros c Hc. now right.
  - destruct (split_point s) as [ip fp]. simpl in *.
    intros c [Hc|Hc]; [now left|right; now apply IH].
Qed.

Lemma float_of_str_ext s :
  (forall c, In c s -> d1 c = d2 c) -> float_of_str d1 s = float_of_str d2 s.
Proof.
  intros H. unfold float_of_str, decimal_value.
  pose proof (split_point_incl s) as Hi.
  destruct (split_point s) as [ip [fp|]]; simpl in Hi.
  - rewrite (digits_value_ext (ip ++ fp)); trivial. intros; apply H; now apply Hi.
  - rewrite (digits_value_ext (ip ++ [])); trivial. intros; apply H; now apply Hi.
Qed.

Lemma scaled_confidence_ext text :
  (forall c, In c text -> d1 c = d2 c) ->
  spec_scaled_confidence d1 text = spec_scaled_confidence d2 text.
Proof.
  intros H. unfold spec_scaled_confidence.
  rewrite (first_decimal_number_ext text H).
  destruct (spec_first_decimal_number d2 text) as [number|] eqn:Hn; trivial.
  rewrite (float_of_str_ext number); trivial.
  intros c Hc. apply H. eapply first_decimal_number_incl; eassumption.
Qed.

End TwoDatabases.

End FloatOfStr.

(** ** The client *)
Module ClientFacts.

Import detected_object VisionLanguageModelVLLM.

Lemma eqb_eq a : forall b, PyStr.eqb a b = true <-> a = b.
Proof.
  induction a as [|x a IH]; intros [|y b]; simpl; split; try congruence.
  - intros H. apply andb_prop in H. destruct H as [Hx Hab].
    apply N.eqb_eq in Hx. apply IH in Hab. congruence.
  - intros [= -> ->]. rewrite N.eqb_refl. now apply IH.
Qed.

Lemma eqb_neq a b : a <> b -> PyStr.eqb a b = false.
Proof.
  intros H. destruct (PyStr.eqb a b) eqn:E; trivial. now apply eqb_eq in E.
Qed.

Section WithCollaborators.

Variable E : Env.

Lemma infer_with_image_read self language image image_path w w' r :
  chat_request E self language image image_path w = (Ok r, w') ->
  infer_with_image E self language image image_path w = read_response E r w'.
Proof.
  intros H. unfold infer_with_image, bind. now rewrite H.
Qed.

Lemma read_response_first r choice others first more w :
  choices r = choice :: others ->
  logprobs choice = Some (Some (first :: more)) ->
  read_response E r w =
  match token_confidence E first w with
  | (Ok confidence, w1) => (Ok (message_content choice, confidence), w1)
  | (Err e, w1) => (Err e, w1)
  end.
Proof.
  intros Hr Hl. unfold read_response, first_logprob, bind.
  rewrite Hr. simpl. rewrite Hl. simpl. reflexivity.
Qed.

Lemma token_confidence_answered first v w :
  token first = lit "Yes" \/ token first = lit "No" ->
  math_exp E (logprob first) = Some v ->
  token_confidence E first w = (Ok v, w).
Proof.
  intros Ht Hv. unfold token_confidence. rewrite Hv.
  destruct Ht as [-> | ->]; reflexivity.
Qed.

Lemma token_confidence_other first w :
  token first <> lit "Yes" -> token first <> lit "No" ->
  token_confidence E first w = (Ok 0%float, w).
Proof.
  intros Hy Hn. unfold token_confidence.
  change (mem (token first) [lit "Yes"; lit "No"])
    with (PyStr.eqb (token first) (lit "Yes")
          || (PyStr.eqb (token first) (lit "No") || false)).
  now rewrite (eqb_neq _ _ Hy), (eqb_neq _ _ Hn).
Qed.

(** The pair [infer_with_image] returns, from the completion it got. *)
Lemma infer_with_image_answered self language image image_path w w'
    r choice others first more v :
  chat_request E self language image image_path w = (Ok r, w') ->
  choices r = choice :: others ->
  logprobs choice = Some (Some (first :: more)) ->
  token first = lit "Yes" \/ token first = lit "No" ->
  math_exp E (logprob first) = Some v ->
  infer_with_image E self language image image_path w
  = (Ok (message_content choice, v), w').
Proof.
  intros Hreq Hchoice Hfirst Htok Hv.
  rewrite (infer_with_image_read _ _ _ _ _ _ _ Hreq).
  rewrite (read_response_first _ _ _ _ _ _ Hchoice Hfirst).
  now rewrite (token_confidence_answered _ _ _ Htok Hv).
Qed.

Lemma infer_with_image_unanswered self language image image_path w w'
    r choice others first more :
  chat_request E self language image image_path w = (Ok r, w') ->
  choices r = choice :: others ->
  logprobs choice = Some (Some (first :: more)) ->
  token first <> lit "Yes" -> token first <> lit "No" ->
  infer_with_image E self language image image_path w
  = (Ok (message_content choice, 0%float), w').
Proof.
  intros Hreq Hchoice Hfirst Hyes Hno.
  rewrite (infer_with_image_read _ _ _ _ _ _ _ Hreq).
  rewrite (read_response_first _ _ _ _ _ _ Hchoice Hfirst).
  now rewrite (token_confidence_other _ _ Hyes Hno).
Qed.

(** What [detect] reports in the token-probability mode, from the pair that
    [infer_with_image] returned. *)
Lemma detect_token self frame_img scene_description threshold w w1 text c :
  infer_with_image E self (token_prompt scene_description) (Some frame_img) None w
  = (Ok (Some text, c), w1) ->
  let yes := contains (lit "yes") (str_lower E text) in
  let below := (c <=? threshold)%float in
  let reported := if yes && below then 0%float else c in
  detect E self frame_img scene_description threshold true w =
  (Ok {| name := scene_description;
         detected_object.model_name := model_name self;
         confidence := PyFloat.round reported 3;
         probability := PyFloat.round reported 3;
         number_of_detection := 1;
         is_detected := yes && negb below |}, w1).
Proof.
  intros H. unfold detect, bind. rewrite H.
  unfold score_token, bind, ret.
  destruct (contains (lit "yes") (str_lower E text));
    destruct (c <=? threshold)%float; reflexivity.
Qed.

Lemma extract_confidence_pure confidence_str w :
  extract_confidence E confidence_str w =
  (fst (extract_confidence E confidence_str w), w).
Proof.
  unfold extract_confidence.
  destruct confidence_str as [text|]; trivial.
  destruct (Re.search (decimal E) Re.number_re text) as [group|]; trivial.
  destruct (Re.float_of_str (decimal E) group); reflexivity.
Qed.

Lemma extract_confidence_not_SyntaxError confidence_str w e w1 :
  extract_confidence E confidence_str w = (Err e, w1) -> is_SyntaxError e = false.
Proof.
  unfold extract_confidence.
  destruct confidence_str as [text|]; [|now intros [= <- _]].
  destruct (Re.search (decimal E) Re.number_re text) as [group|]; [|discriminate].
  destruct (Re.float_of_str (decimal E) group); [discriminate|now intros [= <- _]].
Qed.

(** What [detect] reports in the numeric-scale mode, from the number that
    was read off the text. *)
Lemma detect_scale self frame_img scene_description threshold w w1 confidence_str c0 v :
  infer_with_image E self (scale_prompt scene_description) (Some frame_img) None w
  = (Ok (confidence_str, c0), w1) ->
  fst (extract_confidence E confidence_str w1) = Ok v ->
  let scaled := PyFloat.min (v / 10) 1 in
  detect E self frame_img scene_description threshold false w =
  (Ok {| name := scene_description;
         detected_object.model_name := model_name self;
         confidence := PyFloat.round scaled 3;
         probability := PyFloat.round scaled 3;
         number_of_detection := 1;
         is_detected := negb (scaled <=? threshold)%float |}, w1).
Proof.
  intros H Hv. unfold detect, bind, try_extract. rewrite H.
  rewrite extract_confidence_pure, Hv.
  unfold ret, score_scale. rewrite FloatFacts.mul_one.
  destruct (PyFloat.min (v / 10) 1 <=? threshold)%float; reflexivity.
Qed.

Lemma extract_confidence_nonneg confidence_str w v :
  fst (extract_confidence E confidence_str w) = Ok v ->
  Range.nonneg (Prim2SF v) = true.
Proof.
  unfold extract_confidence.
  destruct confidence_str as [text|]; [|discriminate].
  destruct (Re.search (decimal E) Re.number_re text) as [group|].
  - destruct (Re.float_of_str (decimal E) group) as [x|] eqn:Hx; [|discriminate].
    intros [= <-]. eapply FloatOfStr.float_of_str_nonneg, Hx.
  - intros [= <-]. vm_compute. reflexivity.
Qed.

(** *** Which steps can fail on the assertion *)
Lemma no_assert_ret {A} (a : A) : no_assert (ret a).
Proof. intros w msg w'. unfold ret. congruence. Qed.

Lemma no_assert_raise {A} (e : exn) :
  (forall msg, e <> AssertionError msg) -> no_assert (@raise A e).
Proof. intros He w msg w' [= H _]. now apply (He msg). Qed.

Lemma no_assert_call {A} (r : raised + A) : no_assert (call r).
Proof.
  destruct r; [apply no_assert_raise; discriminate|apply no_assert_ret].
Qed.

Lemma no_assert_bind {A B} (m : M A) (k : A -> M B) :
  no_assert m -> (forall a, no_assert (k a)) -> no_assert (bind m k).
Proof.
  intros Hm Hk w msg w'. unfold bind.
  destruct (m w) as [[a|e] w1] eqn:Hmw.
  - apply Hk.
  - intros [= -> ->]. now apply (Hm w msg w').
Qed.

Lemma no_assert_item0 {A} (xs : list A) : no_assert (item0 xs).
Proof.
  destruct xs; [apply no_assert_raise; discriminate|apply no_assert_ret].
Qed.

Lemma no_assert_OpenAI api_key base_url : no_assert (OpenAI E api_key base_url).
Proof.
  intros w msg w'. unfold OpenAI. destruct (OpenAI_init E _); congruence.
Qed.

Lemma no_assert_load_image image image_path : no_assert (load_image E image image_path).
Proof.
  unfold load_image. destruct image_path as [[|c path]|]; apply no_assert_call.
Qed.

Lemma no_assert_select_client self : no_assert (select_client E self).
Proof.
  unfold select_client, client_stream. destruct (parallel_inference self).
  - apply no_assert_bind; [apply no_assert_OpenAI|intros; apply no_assert_ret].
  - destruct (client self) as [c|]; [destruct (OpenAI_stream E c)|];
      first [apply no_assert_ret | apply no_assert_raise; discriminate].
Qed.

Lemma no_assert_create client req : no_assert (create E client req).
Proof.
  intros w msg w'. unfold create.
  destruct (chat_completions_create E w client req); congruence.
Qed.

Lemma no_assert_read_response r : no_assert (read_response E r).
Proof.
  unfold read_response. apply no_assert_bind; [apply no_assert_item0|]. intros choice.
  apply no_assert_bind.
  - unfold first_logprob. apply no_assert_bind; [apply no_assert_item0|]. intros c.
    destruct (logprobs c) as [[content|]|];
      first [apply no_assert_item0 | apply no_assert_raise; discriminate].
  - intros first. apply no_assert_bind; [|intros; apply no_assert_ret].
    unfold token_confidence. destruct (mem _ _); [|apply no_assert_ret].
    destruct (math_exp E _); [apply no_assert_ret|apply no_assert_raise; discriminate].
Qed.

(** Once an image or a path is given, nothing in [infer_with_image] fails
    on the assertion. *)
Lemma no_assert_after_assertion self language image image_path :
  no_assert
    (image <- load_image E image image_path ;;
     client <- select_client E self ;;
     image_url <- convert_np_image_to_url E self image ;;
     chat_response <-
       create E client
         {| req_text := language;
            req_image_url := image_url;
            req_model := model self;
            req_max_tokens := 5;
            req_logprobs := true |} ;;
     read_response E chat_response).
Proof.
  apply no_assert_bind; [apply no_assert_load_image|]. intros im.
  apply no_assert_bind; [apply no_assert_select_client|]. intros client.
  apply no_assert_bind.
  - unfold convert_np_image_to_url.
    apply no_assert_bind; [apply no_assert_call|intros; apply no_assert_ret].
  - intros url. apply no_assert_bind; [apply no_assert_create|].
    intros r. apply no_assert_read_response.
Qed.

(** *** Which object the request goes through *)

(** With [parallel_inference], a client is constructed from the stored key
    and endpoint, and the request goes through it. *)
Lemma parallel_request_client self language image image_path w w' r :
  parallel_inference self = true ->
  chat_request E self language image image_path w = (Ok r, w') ->
  exists req,
    clients w' = clients w ++ [ {| cfg_api_key := api_key self;
                                   cfg_base_url := endpoint self |} ]
    /\ calls w' = calls w ++ [ (OpenAIClient (List.length (clients w)), req) ].
Proof.
  intros Hp. unfold chat_request, bind, select_client. rewrite Hp.
  destruct (assert_image_given image image_path w) as [[[]|e0] w0] eqn:Ha;
    [|discriminate].
  assert (w0 = w) as ->.
  { unfold assert_image_given, py_assert, ret, raise in Ha.
    destruct (_ || _); congruence. }
  destruct (load_image E image image_path w) as [[im|e1] w1] eqn:Hl; [|discriminate].
  assert (w1 = w) as ->.
  { unfold load_image, call, ret, raise in Hl.
    destruct image_path as [[|c path]|];
      repeat match type of Hl with context [match ?x with _ => _ end] => destruct x end;
      congruence. }
  unfold OpenAI, bind, ret.
  destruct (OpenAI_init E _) as [e2|]; [discriminate|]. cbn [clients calls].
  unfold convert_np_image_to_url, bind, call, ret, raise.
  destruct (save_JPEG E im) as [e2|jpeg]; [discriminate|].
  unfold create. cbn [clients calls].
  match goal with
  | |- context [chat_completions_create E ?w2 ?c ?q] =>
      destruct (chat_completions_create E w2 c q); [discriminate|]
  end.
  intros [= _ <-]. cbn [clients calls]. eexists. split; reflexivity.
Qed.

(** Without it, the request goes through whatever the attribute [stream] of
    the stored client is; when the client has no such attribute, the call
    fails there and nothing is sent. *)
Lemma shared_request_stream self language image image_path w w' r :
  parallel_inference self = false ->
  chat_request E self language image image_path w = (Ok r, w') ->
  exists c through req,
    client self = Some c /\ OpenAI_stream E c = Some through
    /\ clients w' = clients w /\ calls w' = calls w ++ [ (through, req) ].
Proof.
  intros Hp. unfold chat_request, bind, select_client, client_stream. rewrite Hp.
  destruct (assert_image_given image image_path w) as [[[]|e0] w0] eqn:Ha;
    [|discriminate].
  assert (w0 = w) as ->.
  { unfold assert_image_given, py_assert, ret, raise in Ha.
    destruct (_ || _); congruence. }
  destruct (load_image E image image_path w) as [[im|e1] w1] eqn:Hl; [|discriminate].
  assert (w1 = w) as ->.
  { unfold load_image, call, ret, raise in Hl.
    destruct image_path as [[|c path]|];
      repeat match type of Hl with context [match ?x with _ => _ end] => destruct x end;
      congruence. }
  destruct (client self) as [c|]; [|discriminate].
  destruct (OpenAI_stream E c) as [through|] eqn:Hs; [|discriminate].
  unfold ret, convert_np_image_to_url, bind, call, ret, raise.
  destruct (save_JPEG E im) as [e2|jpeg]; [discriminate|].
  unfold create.
  match goal with
  | |- context [chat_completions_create E ?w2 ?o ?q] =>
      destruct (chat_completions_create E w2 o q); [discriminate|]
  end.
  intros [= _ <-]. cbn [clients calls]. exists c, through. eexists.
  repeat split. exact Hs.
Qed.

Lemma shared_request_no_stream self language image image_path w c :
  parallel_inference self = false ->
  client self = Some c -> OpenAI_stream E c = None ->
  (image <> None \/ image_path <> None) ->
  (forall im, load_image E image image_path w = (Ok im, w) ->
     infer_with_image E self language image image_path w
     = (Err (AttributeError "stream"), w)).
Proof.
  intros Hp Hc Hs Hgiven im Hl.
  unfold infer_with_image, chat_request, bind, select_client, client_stream.
  rewrite Hp, Hc, Hs.
  assert (assert_image_given image image_path w = (Ok tt, w)) as ->.
  { unfold assert_image_given, py_assert.
    destruct image, image_path; trivial. destruct Hgiven; congruence. }
  now rewrite Hl.
Qed.

(** The number [detect] reads off a text is the one the specification
    describes. *)
Lemma extract_confidence_scaled text w :
  decimal E 46 = None ->
  exists v,
    fst (extract_confidence E (Some text) w) = Ok v
    /\ Re.spec_scaled_confidence (decimal E) text = Some (PyFloat.min (v / 10) 1).
Proof.
  intros Hstop. unfold extract_confidence, Re.spec_scaled_confidence.
  rewrite ReFacts.search_first_decimal_number.
  destruct (Re.spec_first_decimal_number (decimal E) text) as [number|] eqn:Hn.
  - destruct (FloatOfStr.float_of_first_decimal_number (decimal E) Hstop text number Hn)
      as [v Hv].
    rewrite Hv. exists v. split; reflexivity.
  - exists 0.10%float. split; reflexivity.
Qed.

Lemma extract_confidence_default text w :
  (forall c, In c text -> decimal E c = None) ->
  fst (extract_confidence E (Some text) w) = Ok 0.10%float.
Proof.
  intros H. unfold extract_confidence.
  rewrite ReFacts.search_first_decimal_number.
  now rewrite (ReFacts.no_digit_no_number (decimal E) text H).
Qed.

(** *** Log-probabilities *)

(** The completion that [chat_request] returns is one the server sent. *)
Lemma chat_request_answer self language image image_path w w' r :
  chat_request E self language image image_path w = (Ok r, w') ->
  exists w0 client req, chat_completions_create E w0 client req = inr r.
Proof.
  unfold chat_request, bind.
  destruct (assert_image_given image image_path w) as [[[]|e0] w0]; [|discriminate].
  destruct (load_image E image image_path w0) as [[im|e1] w1]; [|discriminate].
  destruct (select_client E self w1) as [[through|e2] w2]; [|discriminate].
  destruct (convert_np_image_to_url E self im w2) as [[url|e3] w3]; [|discriminate].
  unfold create.
  match goal with
  | |- context [chat_completions_create E ?a ?b ?c] =>
      destruct (chat_completions_create E a b c) as [e4|r0] eqn:Hc; [discriminate|]
  end.
  intros [= <- _]. eauto.
Qed.

(** The confidence read off a completion is 0.0, or what [math.exp] makes
    of a log-probability that the completion carries. *)
Lemma read_response_confidence r w response c w' :
  read_response E r w = (Ok (response, c), w') ->
  c = 0%float
  \/ exists choice content first,
       In choice (choices r) /\ logprobs choice = Some (Some content)
       /\ In first content /\ math_exp E (logprob first) = Some c.
Proof.
  unfold read_response, first_logprob, token_confidence, bind, item0, ret, raise.
  destruct (choices r) as [|choice others]; [discriminate|].
  destruct (logprobs choice) as [[[|first more]|]|] eqn:Hl; try discriminate.
  destruct (mem _ _).
  - destruct (math_exp E (logprob first)) as [v|] eqn:Hv; [|discriminate].
    intros [= _ <- _]. right. exists choice, (first :: more), first.
    repeat split; simpl; auto.
  - intros [= _ <- _]. now left.
Qed.

(** With collaborators that deal in log-probabilities, the confidence that
    [infer_with_image] returns is a number of [0.0, 1.0]. *)
Lemma infer_with_image_unit self language image image_path w response c w' :
  Range.log_probabilities E ->
  infer_with_image E self language image image_path w = (Ok (response, c), w') ->
  (0 <=? c)%float = true /\ (c <=? 1)%float = true.
Proof.
  intros [Hserver Hexp] Hi. unfold infer_with_image, bind in Hi.
  destruct (chat_request E self language image image_path w) as [[r|e] w1] eqn:Hreq;
    [|discriminate].
  destruct (chat_request_answer _ _ _ _ _ _ _ Hreq) as (w0 & through & req & Hc).
  destruct (read_response_confidence _ _ _ _ _ Hi)
    as [->|(choice & content & first & H1 & H2 & H3 & H4)].
  - split; vm_compute; reflexivity.
  - apply (Hexp (logprob first)); [|exact H4].
    exact (Hserver _ _ _ _ _ _ _ Hc H1 H2 H3).
Qed.

End WithCollaborators.

Lemma round_zero : PyFloat.round 0 3 = 0%float.
Proof. vm_compute. reflexivity. Qed.

End ClientFacts.

(** ** The model at work *)
Module Examples.

Import Reference.

Example round_ties_to_even :
  PyFloat.round 0.0625 3 = 0.062%float /\ PyFloat.round 0.1875 3 = 0.188%float.
Proof. split; vm_compute; reflexivity. Qed.

Example round_sees_the_binary_value :
  PyFloat.round 2.675 2 = 2.67%float /\ PyFloat.round 0.0635 3 = 0.064%float.
Proof. split; vm_compute; reflexivity. Qed.

Example tenth_of_a_tenth : (0.10 * 1 / 10)%float = 0.01%float.
Proof. vm_compute. reflexivity. Qed.

Example float_of_text :
  Re.float_of_str ascii_decimal (lit "7.5") = Some 7.5%float
  /\ Re.float_of_str ascii_decimal (lit "0.10") = Some 0.1%float
  /\ Re.float_of_str ascii_decimal (lit "seven") = None.
Proof. repeat split; vm_compute; reflexivity. Qed.

Example search_is_leftmost :
  Re.search ascii_decimal Re.number_re (lit "x12.y3.4") = Some (lit "12")
  /\ Re.search ascii_decimal Re.number_re (lit "1.2.3") = Some (lit "1.2")
  /\ Re.search ascii_decimal Re.number_re (lit "-.5") = Some (lit "5")
  /\ Re.search ascii_decimal Re.number_re fairly_confident = Some (lit "7.5")
  /\ Re.search ascii_decimal Re.number_re (lit "I cannot determine") = None.
Proof. repeat split; vm_compute; reflexivity. Qed.

Example b64encode_pads :
  base64.b64encode (lit "Man") = lit "TWFu"
  /\ base64.b64encode (lit "Ma") = lit "TWE="
  /\ base64.b64encode (lit "M") = lit "TQ==".
Proof. repeat split; vm_compute; reflexivity. Qed.

Example exp_of_zero_and_one :
  exp 0 = Some 1%float /\ exp 1 = Some 2.7182818284590451%float
  /\ exp 710 = None.
Proof. repeat split; vm_compute; reflexivity. Qed.

(** Numeric-scale mode, at or below the threshold: not detected, and the
    confidence stays. *)
Example scale_below_threshold :
  outcome (run_detect true (completion (lit "0.5") (lit "0") (-0.1)) (lit "cat") 0.1 false)
  = Some (0.05%float, 0.05%float, 1%Z, false).
Proof. vm_compute. reflexivity. Qed.

(** Numeric-scale mode, off the scale: clamped to 1.0. *)
Example scale_clamped :
  outcome (run_detect true (completion (lit "25") (lit "25") (-0.1)) (lit "cat") 0.1 false)
  = Some (1%float, 1%float, 1%Z, true).
Proof. vm_compute. reflexivity. Qed.

(** Token-probability mode on the answer "Yes" with probability 0.905. *)
Example token_detected :
  outcome (run_detect true (completion (lit "Yes") (lit "Yes") (-0.1)) (lit "cat") 0.1 true)
  = Some (0.905%float, 0.905%float, 1%Z, true).
Proof. vm_compute. reflexivity. Qed.

(** Without [parallel_inference], every call of [detect] fails on
    [self.client.stream]. *)
Example shared_detect_fails :
  fst (run_detect false (completion (lit "Yes") (lit "Yes") (-0.1)) (lit "cat") 0.1 true)
  = Err (AttributeError "stream").
Proof. vm_compute. reflexivity. Qed.

(** The guarded exponential takes what is zero or below into [0.0, 1.0]. *)
Lemma exp_guarded_unit p v :
  (p <=? 0)%float = true -> exp_guarded p = Some v ->
  (0 <=? v)%float = true /\ (v <=? 1)%float = true.
Proof.
  intros Hp. unfold exp_guarded. destruct (exp p) as [y|]; [|discriminate].
  rewrite Hp. cbn [andb].
  destruct ((0 <=? y)%float && (y <=? 1)%float) eqn:Hy; cbn [negb]; intros [= <-].
  - now apply andb_prop in Hy.
  - split; vm_compute; reflexivity.
Qed.

(** The guarded runtime deals in log-probabilities when its canned answer
    carries nothing else. *)
Lemma env_guarded_log_probabilities answer :
  (forall choice content first,
     In choice (choices answer) -> logprobs choice = Some (Some content) ->
     In first content -> (logprob first <=? 0)%float = true) ->
  Range.log_probabilities (env_guarded answer).
Proof.
  intros Hanswer. split.
  - intros w through req r choice content first Hr.
    cbn [chat_completions_create env_guarded] in Hr. unfold server in Hr.
    destruct through; [|discriminate]. injection Hr as <-. apply Hanswer.
  - exact exp_guarded_unit.
Qed.

End Examples.

(** ** The claims *)

Import detected_object VisionLanguageModelVLLM.

Section Confidence.

Variable E : Env.

(** C2. [infer_with_image] returns, next to the text of the first choice,
    the exponential of the log-probability of the first generated token when
    the literal text of that token is exactly "Yes" or exactly "No", and 0.0
    for any other first token. *)
Theorem infer_with_image_confidence self language image image_path w w'
    r choice others first more :
  chat_request E self language image image_path w = (Ok r, w') ->
  choices r = choice :: others ->
  logprobs choice = Some (Some (first :: more)) ->
  (token first = lit "Yes" \/ token first = lit "No" ->
   forall v, math_exp E (logprob first) = Some v ->
   infer_with_image E self language image image_path w
   = (Ok (message_content choice, v), w'))
  /\
  (token first <> lit "Yes" -> token first <> lit "No" ->
   infer_with_image E self language image image_path w
   = (Ok (message_content choice, 0%float), w')).
Proof.
  intros Hreq Hchoice Hfirst.
  rewrite (ClientFacts.infer_with_image_read E _ _ _ _ _ _ _ Hreq).
  rewrite (ClientFacts.read_response_first E _ _ _ _ _ _ Hchoice Hfirst).
  split.
  - intros Htok v Hv.
    now rewrite (ClientFacts.token_confidence_answered E _ _ _ Htok Hv).
  - intros Hyes Hno.
    now rewrite (ClientFacts.token_confidence_other E _ _ Hyes Hno).
Qed.

End Confidence.

Lemma infer_with_image_confidence_witness :
  infer_with_image
    (Reference.env (Reference.completion (lit "Yes") (lit "Yes") (-0.1)))
    Reference.instance (token_prompt (lit "cat")) (Some Reference.frame) None
    Reference.nothing
  = (Ok (Some (lit "Yes"), 0.90483741803595952%float),
     Reference.asked (token_prompt (lit "cat"))).
Proof.
  refine (proj1 (infer_with_image_confidence
            (Reference.env (Reference.completion (lit "Yes") (lit "Yes") (-0.1)))
            Reference.instance (token_prompt (lit "cat")) (Some Reference.frame) None
            Reference.nothing (Reference.asked (token_prompt (lit "cat")))
            (Reference.completion (lit "Yes") (lit "Yes") (-0.1))
            {| message_content := Some (lit "Yes");
               logprobs := Some (Some [ {| token := lit "Yes"; logprob := -0.1 |} ]) |}
            [] {| token := lit "Yes"; logprob := -0.1 |} [] _ _ _) _ _ _).
  - vm_compute. reflexivity.
  - reflexivity.
  - reflexivity.
  - left. reflexivity.
  - vm_compute. reflexivity.
Defined.

Section Arguments.

Variable E : Env.

(** C7. A call of [infer_with_image] with neither [image] nor [image_path]
    fails on the assertion at once: the world is as before, so no client was
    made and no request sent. With at least one of the two given, the
    assertion passes and nothing later fails on it. *)
Theorem infer_with_image_needs_an_image self language w :
  infer_with_image E self language None None w
  = (Err (AssertionError "One of 'image' or 'image_path' must be defined."), w)
  /\
  (forall image image_path,
     image <> None \/ image_path <> None ->
     assert_image_given image image_path w = (Ok tt, w)
     /\ forall msg w',
          infer_with_image E self language image image_path w
          <> (Err (AssertionError msg), w')).
Proof.
  split; [reflexivity|].
  intros image image_path Hgiven.
  assert (Ha : assert_image_given image image_path w = (Ok tt, w)).
  { unfold assert_image_given, py_assert.
    destruct image, image_path; trivial. destruct Hgiven; congruence. }
  split; [exact Ha|].
  intros msg w'.
  pose proof (ClientFacts.no_assert_after_assertion E self language image image_path
                w msg w') as Hrest.
  unfold infer_with_image, chat_request, bind in *.
  rewrite Ha.
  destruct (load_image E image image_path w) as [[im|e1] w1]; [|exact Hrest].
  destruct (select_client E self w1) as [[client|e2] w2]; [|exact Hrest].
  destruct (convert_np_image_to_url E self im w2) as [[url|e3] w3]; [|exact Hrest].
  destruct (create E client _ w3) as [[r|e4] w4]; [exact Hrest|exact Hrest].
Qed.

End Arguments.

Lemma infer_with_image_needs_an_image_witness :
  assert_image_given (Some Reference.frame) None Reference.nothing
  = (Ok tt, Reference.nothing)
  /\ infer_with_image
       (Reference.env (Reference.completion (lit "Yes") (lit "Yes") (-0.1)))
       Reference.instance (token_prompt (lit "cat")) (Some Reference.frame) None
       Reference.nothing
     <> (Err (AssertionError "One of 'image' or 'image_path' must be defined."),
         Reference.nothing).
Proof.
  destruct (proj2 (infer_with_image_needs_an_image
                     (Reference.env (Reference.completion (lit "Yes") (lit "Yes") (-0.1)))
                     Reference.instance (token_prompt (lit "cat")) Reference.nothing)
              (Some Reference.frame) None
              (or_introl (fun H : Some Reference.frame = None =>
                            eq_ind (Some Reference.frame)
                              (fun o => match o with Some _ => True | None => False end)
                              I None H)))
    as [Hpass Hnever].
  split; [exact Hpass|apply Hnever].
Defined.

(** C9, on the path without [parallel_inference]. The request does not go
    through the client stored by the constructor but through the attribute
    [stream] of that client, whatever the SDK makes of it. With an SDK whose
    clients have no such attribute: the constructor makes one client and
    stores it, and [infer_with_image] then fails with [AttributeError] before
    anything is sent. *)
Theorem shared_client_is_bypassed :
  (forall E self language image image_path w w' r,
     parallel_inference self = false ->
     chat_request E self language image image_path w = (Ok r, w') ->
     exists c through req,
       client self = Some c /\ OpenAI_stream E c = Some through
       /\ calls w' = calls w ++ [ (through, req) ])
  /\ Reference.construct false = (Ok Reference.shared_instance, Reference.one_client)
  /\ forall answer language,
       infer_with_image (Reference.env answer) Reference.shared_instance language
         (Some Reference.frame) None Reference.one_client
       = (Err (AttributeError "stream"), Reference.one_client).
Proof.
  split; [|split; reflexivity].
  intros E self language image image_path w w' r Hshared Hreq.
  destruct (ClientFacts.shared_request_stream E _ _ _ _ _ _ _ Hshared Hreq)
    as [c [through [req [Hc [Hs [_ Hcalls]]]]]].
  exists c, through, req. repeat split; assumption.
Qed.

Section Scoring.

Variable E : Env.

(** C8. Whatever the mode and the branch, the object [detect] returns has
    its probability equal to its confidence. *)
Theorem detect_probability_is_confidence self frame_img scene_description threshold
    mode w obj w' :
  detect E self frame_img scene_description threshold mode w = (Ok obj, w') ->
  probability obj = confidence obj.
Proof.
  destruct mode.
  - unfold detect, bind.
    destruct (infer_with_image E self (token_prompt scene_description)
                (Some frame_img) None w) as [[[response c]|e] w1]; [|discriminate].
    unfold score_token, bind, ret, raise.
    destruct response as [text|]; [|discriminate].
    destruct (contains (lit "yes") (str_lower E text)).
    + destruct (c <=? threshold)%float; intros [= <- _]; reflexivity.
    + intros [= <- _]; reflexivity.
  - unfold detect, bind.
    destruct (try_extract E self (scale_prompt scene_description) frame_img w)
      as [[v|e] w1]; [|discriminate].
    unfold ret, score_scale. intros [= <- _]. reflexivity.
Qed.

(** C10. Token-probability mode, threshold at least 0: when the first
    generated token is neither "Yes" nor "No", the object returned is not
    detected and has confidence 0.0, whether or not the text contains "yes". *)
Theorem detect_unanswered_token self frame_img scene_description threshold w w'
    r choice others text first more :
  chat_request E self (token_prompt scene_description) (Some frame_img) None w
  = (Ok r, w') ->
  choices r = choice :: others ->
  message_content choice = Some text ->
  logprobs choice = Some (Some (first :: more)) ->
  token first <> lit "Yes" ->
  token first <> lit "No" ->
  (0 <=? threshold)%float = true ->
  exists obj,
    detect E self frame_img scene_description threshold true w = (Ok obj, w')
    /\ is_detected obj = false
    /\ confidence obj = 0%float.
Proof.
  intros Hreq Hchoice Htext Hfirst Hyes Hno Hthr.
  pose proof (ClientFacts.infer_with_image_unanswered E _ _ _ _ _ _ _ _ _ _ _
                Hreq Hchoice Hfirst Hyes Hno) as Hinfer.
  rewrite Htext in Hinfer.
  eexists. split; [exact (ClientFacts.detect_token E _ _ _ threshold _ _ _ _ Hinfer)|].
  cbn [is_detected confidence]. rewrite Hthr.
  destruct (contains (lit "yes") (str_lower E text)); cbn [andb negb];
    split; trivial; apply ClientFacts.round_zero.
Qed.

(** C6, amended. Token-probability mode: when the text contains "yes" in any
    case, the first generated token is exactly "Yes" or "No", and the
    exponential v of its log-probability exceeds the threshold, the object
    returned is detected, with confidence round(v, 3). *)
Theorem detect_confident_yes self frame_img scene_description threshold w w'
    r choice others text first more v :
  chat_request E self (token_prompt scene_description) (Some frame_img) None w
  = (Ok r, w') ->
  choices r = choice :: others ->
  message_content choice = Some text ->
  logprobs choice = Some (Some (first :: more)) ->
  token first = lit "Yes" \/ token first = lit "No" ->
  math_exp E (logprob first) = Some v ->
  contains (lit "yes") (str_lower E text) = true ->
  (threshold <? v)%float = true ->
  exists obj,
    detect E self frame_img scene_description threshold true w = (Ok obj, w')
    /\ is_detected obj = true
    /\ confidence obj = PyFloat.round v 3.
Proof.
  intros Hreq Hchoice Htext Hfirst Htok Hv Hyes Hgt.
  pose proof (ClientFacts.infer_with_image_answered E _ _ _ _ _ _ _ _ _ _ _ _
                Hreq Hchoice Hfirst Htok Hv) as Hinfer.
  rewrite Htext in Hinfer.
  eexists. split; [exact (ClientFacts.detect_token E _ _ _ threshold _ _ _ _ Hinfer)|].
  cbn [is_detected confidence].
  rewrite Hyes, (FloatFacts.ltb_not_leb _ _ Hgt). split; reflexivity.
Qed.

(** C1, amended. Token-probability mode, with c the confidence that
    [infer_with_image] returned: when the text contains "yes" in any case and
    c is at most the threshold, the object returned is not detected and has
    confidence 0.0; when the text does not contain "yes", the object is not
    detected and its confidence is round(c, 3), not zeroed. *)
Theorem detect_below_threshold self frame_img scene_description threshold w w'
    text c :
  infer_with_image E self (token_prompt scene_description) (Some frame_img) None w
  = (Ok (Some text, c), w') ->
  exists obj,
    detect E self frame_img scene_description threshold true w = (Ok obj, w')
    /\ (contains (lit "yes") (str_lower E text) = true ->
        (c <=? threshold)%float = true ->
        is_detected obj = false /\ confidence obj = 0%float)
    /\ (contains (lit "yes") (str_lower E text) = false ->
        is_detected obj = false /\ confidence obj = PyFloat.round c 3).
Proof.
  intros Hinfer.
  eexists. split; [exact (ClientFacts.detect_token E _ _ _ threshold _ _ _ _ Hinfer)|].
  cbn [is_detected confidence]. split.
  - intros -> ->. split; [reflexivity|apply ClientFacts.round_zero].
  - intros ->. split; reflexivity.
Qed.

End Scoring.

Lemma detect_unanswered_token_witness :
  exists obj,
    detect (Reference.env (Reference.completion (lit "Sure, yes") (lit "Sure") (-0.1)))
      Reference.instance Reference.frame (lit "cat") 0.1 true Reference.nothing
    = (Ok obj, Reference.asked (token_prompt (lit "cat")))
    /\ is_detected obj = false
    /\ confidence obj = 0%float.
Proof.
  refine (detect_unanswered_token
            (Reference.env (Reference.completion (lit "Sure, yes") (lit "Sure") (-0.1)))
            Reference.instance Reference.frame (lit "cat") 0.1
            Reference.nothing (Reference.asked (token_prompt (lit "cat")))
            (Reference.completion (lit "Sure, yes") (lit "Sure") (-0.1))
            {| message_content := Some (lit "Sure, yes");
               logprobs := Some (Some [ {| token := lit "Sure"; logprob := -0.1 |} ]) |}
            [] (lit "Sure, yes") {| token := lit "Sure"; logprob := -0.1 |} []
            _ _ _ _ _ _ _).
  - vm_compute. reflexivity.
  - reflexivity.
  - reflexivity.
  - reflexivity.
  - discriminate.
  - discriminate.
  - vm_compute. reflexivity.
Defined.

Lemma detect_confident_yes_witness :
  exists obj,
    detect (Reference.env (Reference.completion (lit "Yes") (lit "Yes") (-0.1)))
      Reference.instance Reference.frame (lit "cat") 0.1 true Reference.nothing
    = (Ok obj, Reference.asked (token_prompt (lit "cat")))
    /\ is_detected obj = true
    /\ confidence obj = PyFloat.round 0.90483741803595952 3.
Proof.
  refine (detect_confident_yes
            (Reference.env (Reference.completion (lit "Yes") (lit "Yes") (-0.1)))
            Reference.instance Reference.frame (lit "cat") 0.1
            Reference.nothing (Reference.asked (token_prompt (lit "cat")))
            (Reference.completion (lit "Yes") (lit "Yes") (-0.1))
            {| message_content := Some (lit "Yes");
               logprobs := Some (Some [ {| token := lit "Yes"; logprob := -0.1 |} ]) |}
            [] (lit "Yes") {| token := lit "Yes"; logprob := -0.1 |} []
            0.90483741803595952%float
            _ _ _ _ _ _ _ _).
  - vm_compute. reflexivity.
  - reflexivity.
  - reflexivity.
  - reflexivity.
  - left. reflexivity.
  - vm_compute. reflexivity.
  - vm_compute. reflexivity.
  - vm_compute. reflexivity.
Defined.

(** C6 as stated fails when the first token is not exactly "Yes" or "No":
    the answer "yes", in lower case, with log-probability -0.1 and threshold
    0.1. The text contains "yes" and exp(-0.1) exceeds the threshold, yet
    the object is not detected and its confidence is 0.0, not
    round(exp(-0.1), 3) = 0.905. *)
Lemma detect_confident_yes_counterexample :
  contains (lit "yes") (ascii_lower (lit "yes")) = true
  /\ Reference.exp (-0.1) = Some 0.90483741803595952%float
  /\ (0.1 <? 0.90483741803595952)%float = true
  /\ PyFloat.round 0.90483741803595952 3 = 0.905%float
  /\ Reference.outcome
       (Reference.run_detect true
          (Reference.completion (lit "yes") (lit "yes") (-0.1)) (lit "cat") 0.1 true)
     = Some (0%float, 0%float, 1%Z, false).
Proof.
  repeat split; vm_compute; reflexivity.
Qed.

Lemma detect_below_threshold_witness :
  exists obj,
    detect (Reference.env (Reference.completion (lit "Yes") (lit "Yes") (-3)))
      Reference.instance Reference.frame (lit "cat") 0.1 true Reference.nothing
    = (Ok obj, Reference.asked (token_prompt (lit "cat")))
    /\ is_detected obj = false
    /\ confidence obj = 0%float.
Proof.
  destruct (detect_below_threshold
              (Reference.env (Reference.completion (lit "Yes") (lit "Yes") (-3)))
              Reference.instance Reference.frame (lit "cat") 0.1
              Reference.nothing (Reference.asked (token_prompt (lit "cat")))
              (lit "Yes") 0.049787068367863944%float)
    as [obj [Hobj [Hyes _]]].
  - vm_compute. reflexivity.
  - exists obj. split; [exact Hobj|].
    apply Hyes; vm_compute; reflexivity.
Defined.

(** C1 as stated fails when the text does not contain "yes": the answer
    "No" with log-probability -3 and threshold 0.1. exp(-3) is below the
    threshold, the object is not detected, but its confidence is 0.05, not
    0.0. *)
Lemma detect_below_threshold_counterexample :
  contains (lit "yes") (ascii_lower (lit "No")) = false
  /\ Reference.exp (-3) = Some 0.049787068367863944%float
  /\ (0.049787068367863944 <=? 0.1)%float = true
  /\ Reference.outcome
       (Reference.run_detect true
          (Reference.completion (lit "No") (lit "No") (-3)) (lit "cat") 0.1 true)
     = Some (0.05%float, 0.05%float, 1%Z, false)
  /\ (0.05 =? 0)%float = false.
Proof.
  repeat split; vm_compute; reflexivity.
Qed.

Section Scale.

Variable E : Env.

(** C3. Numeric-scale mode: [detect] takes the first decimal number of the
    text (0.10 when there is none), divides it by 10 and clamps the result
    to at most 1.0; that value, rounded to three decimals, is both the
    confidence and the probability; the object is detected unless the value
    is at most the threshold, and the confidence is the same in both cases.
    In particular the text "7.5 - fairly confident" with threshold 0.1 gives
    confidence 0.75 and a detected object. *)
Theorem detect_scale_scoring self frame_img scene_description threshold w w'
    text c0 :
  infer_with_image E self (scale_prompt scene_description) (Some frame_img) None w
  = (Ok (Some text, c0), w') ->
  decimal E 46 = None ->
  exists scaled obj,
    Re.spec_scaled_confidence (decimal E) text = Some scaled
    /\ detect E self frame_img scene_description threshold false w = (Ok obj, w')
    /\ confidence obj = PyFloat.round scaled 3
    /\ probability obj = PyFloat.round scaled 3
    /\ is_detected obj = negb (scaled <=? threshold)%float
    /\ (text = Reference.fairly_confident ->
        (forall c, In c text -> decimal E c = ascii_decimal c) ->
        threshold = 0.1%float ->
        confidence obj = 0.75%float /\ is_detected obj = true).
Proof.
  intros Hinfer Hstop.
  destruct (ClientFacts.extract_confidence_scaled E text w' Hstop) as [v [Hv Hs]].
  exists (PyFloat.min (v / 10) 1). eexists.
  split; [exact Hs|].
  split; [exact (ClientFacts.detect_scale E _ _ _ threshold _ _ _ _ _ Hinfer Hv)|].
  cbn [confidence probability is_detected].
  do 3 (split; [reflexivity|]).
  intros -> Hascii ->.
  rewrite (FloatOfStr.scaled_confidence_ext _ _ _ Hascii) in Hs.
  assert (H75 : Re.spec_scaled_confidence ascii_decimal Reference.fairly_confident
                = Some 0.75%float) by (vm_compute; reflexivity).
  rewrite H75 in Hs. injection Hs as Hs. rewrite <- Hs.
  split; vm_compute; reflexivity.
Qed.

(** C4. Numeric-scale mode: on a text with no decimal digit, [detect] does
    not fail; the default 0.10 is divided by 10 like an extracted number, and
    the object returned has confidence 0.01. *)
Theorem detect_scale_fallback self frame_img scene_description threshold w w'
    text c0 :
  infer_with_image E self (scale_prompt scene_description) (Some frame_img) None w
  = (Ok (Some text, c0), w') ->
  (forall c, In c text -> decimal E c = None) ->
  exists obj,
    detect E self frame_img scene_description threshold false w = (Ok obj, w')
    /\ confidence obj = 0.01%float.
Proof.
  intros Hinfer Hnone.
  pose proof (ClientFacts.extract_confidence_default E text w' Hnone) as Hv.
  eexists.
  split; [exact (ClientFacts.detect_scale E _ _ _ threshold _ _ _ _ _ Hinfer Hv)|].
  cbn [confidence]. vm_compute. reflexivity.
Qed.

(** C5. The object [detect] returns has number_of_detection 1, and its
    confidence and probability are one number rounded to three decimals.
    They lie in [0.0, 1.0], where rounding to three decimals once more
    changes nothing: always in the numeric-scale mode, and in the
    token-probability mode with collaborators that deal in
    log-probabilities, that is, a server whose log-probabilities are zero or
    below and a [math.exp] that takes such numbers into [0.0, 1.0]. *)
Theorem detect_unit_interval self frame_img scene_description threshold mode w
    obj w' :
  detect E self frame_img scene_description threshold mode w = (Ok obj, w') ->
  number_of_detection obj = 1%Z
  /\ (exists c,
        confidence obj = PyFloat.round c 3 /\ probability obj = PyFloat.round c 3)
  /\ ((mode = true -> Range.log_probabilities E) ->
      Range.unit_rounded (confidence obj) /\ Range.unit_rounded (probability obj)).
Proof.
  intros H. destruct mode.
  - destruct (infer_with_image E self (token_prompt scene_description)
                (Some frame_img) None w) as [[[response c]|e] w1] eqn:Hi.
    + destruct response as [text|].
      * rewrite (ClientFacts.detect_token E _ _ _ threshold _ _ _ _ Hi) in H.
        injection H as <- _. cbn [number_of_detection confidence probability].
        split; [reflexivity|]. split; [eexists; split; reflexivity|].
        intros Hlog.
        destruct (ClientFacts.infer_with_image_unit E _ _ _ _ _ _ _ _
                    (Hlog eq_refl) Hi) as [H0 H1].
        assert (Hu : Range.unit_rounded
                       (PyFloat.round
                          (if contains (lit "yes") (str_lower E text)
                              && (c <=? threshold)%float
                           then 0%float else c) 3)).
        { destruct (_ && _); apply FloatFacts.round_unit; trivial;
            vm_compute; reflexivity. }
        split; exact Hu.
      * unfold detect, bind in H. rewrite Hi in H. discriminate H.
    + unfold detect, bind in H. rewrite Hi in H. discriminate H.
  - destruct (infer_with_image E self (scale_prompt scene_description)
                (Some frame_img) None w) as [[[confidence_str c0]|e] w1] eqn:Hi.
    + destruct (fst (extract_confidence E confidence_str w1)) as [v|e] eqn:Hv.
      * rewrite (ClientFacts.detect_scale E _ _ _ threshold _ _ _ _ _ Hi Hv) in H.
        injection H as <- _. cbn [number_of_detection confidence probability].
        split; [reflexivity|]. split; [eexists; split; reflexivity|].
        intros _.
        pose proof (ClientFacts.extract_confidence_nonneg E _ _ _ Hv) as Hn.
        destruct (FloatFacts.min_one_unit _ (FloatFacts.div_ten_nonneg _ Hn)) as [H0 H1].
        pose proof (FloatFacts.round_unit _ H0 H1) as Hu.
        split; exact Hu.
      * unfold detect, bind, try_extract in H. rewrite Hi in H.
        pose proof (ClientFacts.extract_confidence_pure E confidence_str w1) as Hp.
        rewrite Hv in Hp. rewrite Hp in H.
        rewrite (ClientFacts.extract_confidence_not_SyntaxError E _ _ _ _ Hp) in H.
        discriminate H.
    + unfold detect, bind, try_extract in H. rewrite Hi in H.
      destruct (is_SyntaxError e); discriminate H.
Qed.

End Scale.

Lemma detect_probability_is_confidence_witness :
  detect (Reference.env (Reference.completion (lit "Yes") (lit "Yes") (-0.1)))
    Reference.instance Reference.frame (lit "cat") 0.1 true Reference.nothing
  = (Ok (Reference.detected 0.905 true), Reference.asked (token_prompt (lit "cat")))
  /\ probability (Reference.detected 0.905 true)
     = confidence (Reference.detected 0.905 true).
Proof.
  assert (H : detect
                (Reference.env (Reference.completion (lit "Yes") (lit "Yes") (-0.1)))
                Reference.instance Reference.frame (lit "cat") 0.1 true
                Reference.nothing
              = (Ok (Reference.detected 0.905 true),
                 Reference.asked (token_prompt (lit "cat"))))
    by (vm_compute; reflexivity).
  split; [exact H|].
  exact (detect_probability_is_confidence _ _ _ _ _ _ _ _ _ H).
Defined.

Lemma detect_scale_scoring_witness :
  exists obj,
    detect
      (Reference.env (Reference.completion Reference.fairly_confident (lit "7") (-0.1)))
      Reference.instance Reference.frame (lit "cat") 0.1 false Reference.nothing
    = (Ok obj, Reference.asked (scale_prompt (lit "cat")))
    /\ confidence obj = 0.75%float
    /\ probability obj = 0.75%float
    /\ is_detected obj = true.
Proof.
  destruct (detect_scale_scoring
              (Reference.env
                 (Reference.completion Reference.fairly_confident (lit "7") (-0.1)))
              Reference.instance Reference.frame (lit "cat") 0.1
              Reference.nothing (Reference.asked (scale_prompt (lit "cat")))
              Reference.fairly_confident 0%float)
    as [scaled [obj [Hscaled [Hobj [Hc [Hp [Hd Hparticular]]]]]]].
  - vm_compute. reflexivity.
  - reflexivity.
  - exists obj. split; [exact Hobj|].
    destruct Hparticular as [Hc75 Hd75]; try reflexivity.
    rewrite Hp, <- Hc. auto.
Defined.

Lemma detect_scale_fallback_witness :
  exists obj,
    detect
      (Reference.env (Reference.completion (lit "I cannot determine") (lit "I") (-0.1)))
      Reference.instance Reference.frame (lit "cat") 0.1 false Reference.nothing
    = (Ok obj, Reference.asked (scale_prompt (lit "cat")))
    /\ confidence obj = 0.01%float.
Proof.
  refine (detect_scale_fallback
            (Reference.env
               (Reference.completion (lit "I cannot determine") (lit "I") (-0.1)))
            Reference.instance Reference.frame (lit "cat") 0.1
            Reference.nothing (Reference.asked (scale_prompt (lit "cat")))
            (lit "I cannot determine") 0%float _ _).
  - vm_compute. reflexivity.
  - intros c Hc. cbv in Hc.
    repeat (destruct Hc as [<-|Hc]; [reflexivity|]). contradiction.
Defined.

(** C5 on the answer "Yes" with log-probability -0.1, in the
    token-probability mode. *)
Lemma detect_unit_interval_witness :
  detect (Reference.env_guarded (Reference.completion (lit "Yes") (lit "Yes") (-0.1)))
    Reference.instance Reference.frame (lit "cat") 0.1 true Reference.nothing
  = (Ok (Reference.detected 0.905 true), Reference.asked (token_prompt (lit "cat")))
  /\ Range.log_probabilities
       (Reference.env_guarded (Reference.completion (lit "Yes") (lit "Yes") (-0.1)))
  /\ number_of_detection (Reference.detected 0.905 true) = 1%Z
  /\ (exists c,
        confidence (Reference.detected 0.905 true) = PyFloat.round c 3
        /\ probability (Reference.detected 0.905 true) = PyFloat.round c 3)
  /\ Range.unit_rounded (confidence (Reference.detected 0.905 true))
  /\ Range.unit_rounded (probability (Reference.detected 0.905 true)).
Proof.
  assert (H : detect
                (Reference.env_guarded
                   (Reference.completion (lit "Yes") (lit "Yes") (-0.1)))
                Reference.instance Reference.frame (lit "cat") 0.1 true
                Reference.nothing
              = (Ok (Reference.detected 0.905 true),
                 Reference.asked (token_prompt (lit "cat"))))
    by (vm_compute; reflexivity).
  assert (Hlog : Range.log_probabilities
                   (Reference.env_guarded
                      (Reference.completion (lit "Yes") (lit "Yes") (-0.1)))).
  { apply Examples.env_guarded_log_probabilities.
    intros choice content first [<-|[]] [= <-] [<-|[]]. reflexivity. }
  split; [exact H|]. split; [exact Hlog|].
  destruct (detect_unit_interval _ _ _ _ _ _ _ _ _ H) as (Hone & Hrounded & Hunit).
  split; [exact Hone|]. split; [exact Hrounded|].
  apply Hunit. intros _. exact Hlog.
Defined.

(** Outside the log-probabilities the bound of C5 is lost: a first token
    "Yes" with the number 1 for a log-probability, which no probability has,
    gives the confidence and the probability round(exp(1), 3) = 2.718; the
    number of detections is 1 and the values are rounded all the same. *)
Lemma detect_positive_log_probability :
  Reference.exp 1 = Some 2.7182818284590451%float
  /\ Reference.outcome
       (Reference.run_detect true
          (Reference.completion (lit "Yes") (lit "Yes") 1) (lit "cat") 0.1 true)
     = Some (2.718%float, 2.718%float, 1%Z, true)
  /\ (2.718 <=? 1)%float = false.
Proof.
  repeat split; vm_compute; reflexivity.
Qed.

(** * Further facts about the client

    ** Base64

    The encoder loses nothing: the standard decoder gives the bytes back,
    and the text is ASCII. *)
Module Base64Facts.
Import base64.
Open Scope N_scope.











End Base64Facts.

(** ** The order on binary64 numbers *)
Module OrderFacts.

Lemma SFleb_trans x y z : SFleb x y = true -> SFleb y z = true -> SFleb x z = true.
Proof.
  unfold SFleb.
  destruct x as [sx|sx| |sx mx ex], y as [sy|sy| |sy my ey], z as [sz|sz| |sz mz ez];
    cbn [SFcompare];
    try destruct sx; try destruct sy; try destruct sz; try discriminate; try reflexivity;
    repeat match goal with
           | |- context [PosDef.Pos.compare_cont Eq ?a ?b] =>
               rewrite (FloatFacts.compare_cont_core a b)
           | |- context [(?a ?= ?b)%Z] => destruct (Z.compare_spec a b)
           | |- context [(?a ?= ?b)%positive] => destruct (Pos.compare_spec a b)
           end;
    cbn [CompOpp]; try discriminate; try reflexivity; intros; exfalso; lia.
Qed.

Lemma leb_trans (x y z : float) :
  (x <=? y)%float = true -> (y <=? z)%float = true -> (x <=? z)%float = true.
Proof. rewrite !FloatAxioms.leb_spec. apply SFleb_trans. Qed.

Lemma leb_refl (x y : float) : (x <=? y)%float = true -> (x <=? x)%float = true.
Proof.
  rewrite !FloatAxioms.leb_spec. unfold SFleb.
  destruct (Prim2SF x) as [sx|sx| |sx mx ex]; cbn [SFcompare].
  - reflexivity.
  - destruct sx; reflexivity.
  - destruct (Prim2SF y); discriminate.
  - intros _. rewrite Z.compare_refl, FloatFacts.compare_cont_core, Pos.compare_refl.
    destruct sx; reflexivity.
Qed.

End OrderFacts.

(** ** What the calls do to the world *)
Module WorldFacts.

Section WithCollaborators.

Variable E : Env.

(** The request that [infer_with_image] builds. *)
Lemma chat_request_sent self language image image_path w r w' :
  chat_request E self language image image_path w = (Ok r, w') ->
  exists im through jpeg w1,
    load_image E image image_path w = (Ok im, w)
    /\ select_client E self w = (Ok through, w1)
    /\ save_JPEG E im = inr jpeg
    /\ w' = {| clients := clients w1;
               calls := calls w1
                        ++ [ (through,
                              {| req_text := language;
                                 req_image_url :=
                                   lit "data:image/jpeg;base64," ++ base64.b64encode jpeg;
                                 req_model := model self;
                                 req_max_tokens := 5;
                                 req_logprobs := true |}) ] |}.
Proof.
  unfold chat_request, bind.
  destruct (assert_image_given image image_path w) as [[[]|e0] w0] eqn:Ha; [|discriminate].
  assert (w0 = w) as ->.
  { unfold assert_image_given, py_assert, ret, raise in Ha. destruct (_ || _); congruence. }
  destruct (load_image E image image_path w) as [[im|e1] w1] eqn:Hl; [|discriminate].
  assert (w1 = w) as ->.
  { unfold load_image, call, ret, raise in Hl.
    destruct image_path as [[|c path]|];
      repeat match type of Hl with context [match ?x with _ => _ end] => destruct x end;
      congruence. }
  destruct (select_client E self w) as [[through|e2] w2] eqn:Hs; [|discriminate].
  unfold convert_np_image_to_url, bind, call, ret, raise.
  destruct (save_JPEG E im) as [e3|jpeg] eqn:Hj; [discriminate|].
  unfold create.
  match goal with
  | |- context [chat_completions_create E ?w2 ?o ?q] =>
      destruct (chat_completions_create E w2 o q); [discriminate|]
  end.
  intros [= _ <-]. exists im, through, jpeg, w2. repeat split; assumption.
Qed.

Lemma read_response_world r w res w' : read_response E r w = (res, w') -> w' = w.
Proof.
  unfold read_response, first_logprob, token_confidence, bind, item0, ret, raise.
  destruct (choices r) as [|choice others]; [congruence|].
  destruct (logprobs choice) as [[[|first more]|]|]; try congruence.
  destruct (mem _ _); [|congruence].
  destruct (math_exp E _); congruence.
Qed.

Lemma select_client_world self w res w1 :
  select_client E self w = (res, w1) ->
  calls w1 = calls w
  /\ (parallel_inference self = false -> w1 = w)
  /\ (parallel_inference self = true ->
      forall through, res = Ok through ->
      through = OpenAIClient (List.length (clients w))
      /\ clients w1 = clients w ++ [ {| cfg_api_key := api_key self;
                                       cfg_base_url := endpoint self |} ])
  /\ (forall e, res = Err e -> w1 = w).
Proof.
  unfold select_client, client_stream, OpenAI, bind, ret, raise.
  destruct (parallel_inference self).
  - destruct (OpenAI_init E _) as [e|]; intros [= <- <-]; cbn [clients calls];
      repeat split; congruence.
  - destruct (client self) as [c|]; [destruct (OpenAI_stream E c)|];
      intros [= <- <-]; repeat split; congruence.
Qed.

Ltac close :=
  repeat split; intros; simpl in *; try lia; try tauto; try congruence;
  try contradiction.

(** The world after any call of [infer_with_image]: at most one client and
    at most one request were added. *)
Lemma infer_with_image_world self language image image_path w res w' :
  infer_with_image E self language image image_path w = (res, w') ->
  exists made sent,
    clients w' = clients w ++ made /\ calls w' = calls w ++ sent
    /\ (List.length made <= 1)%nat /\ (List.length sent <= 1)%nat
    /\ (parallel_inference self = false -> made = [])
    /\ (forall through req, In (through, req) sent ->
        parallel_inference self = true ->
        through = OpenAIClient (List.length (clients w))
        /\ made = [ {| cfg_api_key := api_key self; cfg_base_url := endpoint self |} ])
    /\ (forall x, res = Ok x -> List.length sent = 1%nat).
Proof.
  unfold infer_with_image, chat_request, bind.
  destruct (assert_image_given image image_path w) as [[[]|e0] w0] eqn:Ha.
  2:{ unfold assert_image_given, py_assert, ret, raise in Ha.
      destruct (_ || _); [discriminate|]. injection Ha as _ <-. intros [= <- <-].
      exists [], []. rewrite !app_nil_r. close. }
  assert (w0 = w) as ->.
  { unfold assert_image_given, py_assert, ret, raise in Ha. destruct (_ || _); congruence. }
  destruct (load_image E image image_path w) as [[im|e1] w1] eqn:Hl.
  2:{ assert (w1 = w) as ->.
      { unfold load_image, call, ret, raise in Hl.
        destruct image_path as [[|c path]|];
          repeat match type of Hl with context [match ?x with _ => _ end] => destruct x end;
          congruence. }
      intros [= <- <-].
      exists [], []. rewrite !app_nil_r. close. }
  assert (w1 = w) as ->.
  { unfold load_image, call, ret, raise in Hl.
    destruct image_path as [[|c path]|];
      repeat match type of Hl with context [match ?x with _ => _ end] => destruct x end;
      congruence. }
  destruct (select_client E self w) as [[through|e2] w2] eqn:Hs.
  2:{ destruct (select_client_world _ _ _ _ Hs) as (_ & _ & _ & Herr).
      intros [= <- <-]. rewrite (Herr _ eq_refl).
      exists [], []. rewrite !app_nil_r. close. }
  destruct (select_client_world _ _ _ _ Hs) as (Hc & Hshared & Hpar & _).
  assert (Hmade : exists made,
             clients w2 = clients w ++ made /\ (List.length made <= 1)%nat
             /\ (parallel_inference self = false -> made = [])
             /\ (parallel_inference self = true ->
                 through = OpenAIClient (List.length (clients w))
                 /\ made = [ {| cfg_api_key := api_key self;
                                cfg_base_url := endpoint self |} ])).
  { destruct (parallel_inference self) eqn:Hp.
    - destruct (Hpar eq_refl _ eq_refl) as [-> Hcl]. eexists. split; [exact Hcl|].
      repeat split; simpl; try lia; congruence.
    - rewrite (Hshared eq_refl). exists []. rewrite app_nil_r.
      repeat split; simpl; try lia; congruence. }
  destruct Hmade as (made & Hcl & Hlen & Hnone & Hfresh).
  unfold convert_np_image_to_url, bind, call, ret, raise.
  destruct (save_JPEG E im) as [e3|jpeg].
  { intros [= <- <-]. exists made, []. rewrite app_nil_r.
    close. }
  unfold create.
  match goal with
  | |- context [chat_completions_create E ?w2 ?o ?q] =>
      destruct (chat_completions_create E w2 o q) as [e4|r]
  end.
  { intros [= <- <-]. cbn [clients calls]. exists made. eexists.
    split; [exact Hcl|]. split; [rewrite Hc; reflexivity|].
    repeat split; simpl; try lia; try tauto; try discriminate;
      destruct H as [[= <- _]|[]]; now apply Hfresh. }
  destruct (read_response E r _) as [res1 w3] eqn:Hr.
  apply read_response_world in Hr. subst w3.
  intros [= <- <-]. cbn [clients calls]. exists made. eexists.
  split; [exact Hcl|]. split; [rewrite Hc; reflexivity|].
  repeat split; simpl; try lia; try tauto;
    destruct H as [[= <- _]|[]]; now apply Hfresh.
Qed.

(** [detect] acts on the world through its one call of [infer_with_image]. *)
Lemma detect_world self frame_img scene_description threshold mode w res w' :
  detect E self frame_img scene_description threshold mode w = (res, w') ->
  exists res0,
    infer_with_image E self
      (if mode then token_prompt scene_description else scale_prompt scene_description)
      (Some frame_img) None w = (res0, w')
    /\ (forall obj, res = Ok obj -> exists x, res0 = Ok x).
Proof.
  unfold detect, bind. destruct mode.
  - destruct (infer_with_image E self (token_prompt scene_description)
                (Some frame_img) None w) as [[[response c]|e] w1].
    + unfold score_token, bind, ret, raise.
      destruct response as [text|].
      * destruct (contains _ _); [destruct (c <=? threshold)%float|];
          intros [= <- <-]; eexists; split; eauto.
      * intros [= <- <-]; eexists; split; eauto.
    + intros [= <- <-]; eexists; split; [reflexivity|discriminate].
  - unfold try_extract.
    destruct (infer_with_image E self (scale_prompt scene_description)
                (Some frame_img) None w) as [[[confidence_str c]|e] w1].
    + rewrite ClientFacts.extract_confidence_pure.
      destruct (fst (extract_confidence E confidence_str w1)) as [v|e] eqn:Hv.
      * unfold ret. intros [= <- <-]; eexists; split; eauto.
      * pose proof (ClientFacts.extract_confidence_pure E confidence_str w1) as Hp.
        rewrite Hv in Hp.
        rewrite (ClientFacts.extract_confidence_not_SyntaxError E _ _ _ _ Hp).
        intros [= <- <-]; eexists; split; eauto.
    + destruct (is_SyntaxError e); unfold except_SyntaxError, raise;
        intros [= <- <-]; eexists; split; try reflexivity; discriminate.
Qed.

(** The two fields of the result that do not depend on the answer. *)
Lemma detect_names self frame_img scene_description threshold mode w obj w' :
  detect E self frame_img scene_description threshold mode w = (Ok obj, w') ->
  name obj = scene_description
  /\ detected_object.model_name obj = VisionLanguageModelVLLM.model_name self.
Proof.
  unfold detect, bind. destruct mode.
  - destruct (infer_with_image _ _ _ _ _ _) as [[[response c]|e] w3]; [|discriminate].
    unfold score_token, bind, ret, raise.
    destruct response as [text|]; [|discriminate].
    destruct (contains _ _); [destruct (c <=? threshold)%float|];
      intros [= <- _]; split; reflexivity.
  - destruct (try_extract _ _ _ _ _) as [[v|e] w3]; [|discriminate].
    intros [= <- _]. split; reflexivity.
Qed.

(** The model that a successful [detect] asked for. *)
Lemma detect_asks_model self frame_img scene_description threshold mode w obj w' :
  detect E self frame_img scene_description threshold mode w = (Ok obj, w') ->
  exists through req,
    calls w' = calls w ++ [ (through, req) ] /\ req_model req = model self.
Proof.
  intros Hd.
  destruct (detect_world _ _ _ _ _ _ _ _ Hd) as (res0 & Hi & Hok).
  destruct (Hok obj eq_refl) as [x ->].
  unfold infer_with_image, bind in Hi.
  destruct (chat_request E self _ (Some frame_img) None w) as [[r|e] w1] eqn:Hreq;
    [|discriminate].
  apply read_response_world in Hi. subst w1.
  destruct (chat_request_sent _ _ _ _ _ _ _ Hreq)
    as (im & through & jpeg & w1 & Hl & Hs & Hj & ->).
  destruct (select_client_world _ _ _ _ Hs) as (Hc & _ & _).
  cbn [calls]. rewrite Hc. eexists. eexists. split; reflexivity.
Qed.

End WithCollaborators.
End WorldFacts.

(** ** The first number of a text *)
Module PrefixFacts.

Lemma first_number_skips decimal before text :
  (forall c, In c before -> decimal c = None) ->
  Re.spec_first_decimal_number decimal (before ++ text)
  = Re.spec_first_decimal_number decimal text.
Proof.
  induction before as [|c before IH]; intros H; trivial.
  change (Re.spec_first_decimal_number decimal ((c :: before) ++ text))
    with (if Re.is_digit decimal c
          then Some (Re.number_at decimal (c :: before ++ text))
          else Re.spec_first_decimal_number decimal (before ++ text)).
  unfold Re.is_digit. rewrite (H c) by now left.
  apply IH. intros d Hd. apply H. now right.
Qed.

End PrefixFacts.

Module MatchFacts.
Import Re.
Section WithDatabase.
Variable decimal : N -> option N.

Lemma drop_digits_head s : starts_without_digit decimal (drop_digits decimal s).
Proof.
  induction s as [|c s IH]; simpl; trivial.
  destruct (is_digit decimal c) eqn:Hc; trivial.
Qed.

Lemma take_digits_all s :
  Forall (fun c => is_digit decimal c = true) (take_digits decimal s).
Proof.
  induction s as [|c s IH]; simpl; [constructor|].
  destruct (is_digit decimal c) eqn:Hc; constructor; assumption.
Qed.

Lemma take_digits_none s :
  starts_without_digit decimal s <-> take_digits decimal s = [].
Proof.
  destruct s as [|c s]; simpl; [tauto|].
  destruct (is_digit decimal c); split; congruence.
Qed.

(** A run of digits before a text that does not go on with one is the
    longest run of digits there. *)
Lemma digits_app run rest :
  Forall (fun c => is_digit decimal c = true) run ->
  starts_without_digit decimal rest ->
  take_digits decimal (run ++ rest) = run /\ drop_digits decimal (run ++ rest) = rest.
Proof.
  intros Hrun Hrest.
  induction Hrun as [|c run Hc _ IH]; cbn [app take_digits drop_digits].
  - destruct rest as [|d rest]; [split; reflexivity|].
    cbn [starts_without_digit] in Hrest. cbn [take_digits drop_digits].
    rewrite Hrest. split; reflexivity.
  - rewrite Hc. destruct IH as [-> ->]. split; reflexivity.
Qed.

(** [number_at], case by case. *)
Lemma number_at_cases s :
  (exists t f fp,
     drop_digits decimal s = 46%N :: t /\ take_digits decimal t = f :: fp
     /\ number_at decimal s = take_digits decimal s ++ 46%N :: f :: fp)
  \/ (number_at decimal s = take_digits decimal s
      /\ forall t, drop_digits decimal s = 46%N :: t -> take_digits decimal t = []).
Proof.
  unfold number_at.
  destruct (drop_digits decimal s) as [|d t]; [right; split; [trivial|discriminate]|].
  destruct (N.eq_dec d 46) as [->|Hd].
  - destruct (take_digits decimal t) as [|f fp] eqn:Ht.
    + right. split; [trivial|]. now intros t' [= <-].
    + left. exists t, f, fp. split; [reflexivity|]. split; [exact Ht|reflexivity].
  - right. split.
    + destruct d as [|p]; trivial.
      do 6 (destruct p as [p|p|]; trivial). now contradiction Hd.
    + intros t' [= -> _]. now contradiction Hd.
Qed.

(** The first number of a text, said with the text around it. *)
Lemma first_number_located text group :
  spec_first_decimal_number decimal text = Some group ->
  exists before whole fraction after,
    text = before ++ group ++ after
    /\ group = whole ++ match fraction with [] => [] | _ => 46%N :: fraction end
    /\ Forall (fun c => is_digit decimal c = false) before
    /\ whole <> []
    /\ Forall (fun c => is_digit decimal c = true) whole
    /\ Forall (fun c => is_digit decimal c = true) fraction
    /\ starts_without_digit decimal after
    /\ (fraction = [] ->
        forall rest, after = 46%N :: rest -> starts_without_digit decimal rest).
Proof.
  induction text as [|c s IH]; [discriminate|].
  change (spec_first_decimal_number decimal (c :: s))
    with (if is_digit decimal c then Some (number_at decimal (c :: s))
          else spec_first_decimal_number decimal s).
  destruct (is_digit decimal c) eqn:Hc.
  - intros [= <-]. exists [].
    pose proof (ReFacts.take_drop_digits decimal (c :: s)) as Hsplit.
    assert (Hwhole : take_digits decimal (c :: s) <> [])
      by (simpl; rewrite Hc; discriminate).
    destruct (number_at_cases (c :: s))
      as [(t & f & fp & Hd & Ht & ->)|[-> Hnone]].
    + exists (take_digits decimal (c :: s)), (f :: fp), (drop_digits decimal t).
      split.
      { rewrite app_nil_l, <- app_assoc.
        change ((46%N :: f :: fp) ++ drop_digits decimal t)
          with (46%N :: (f :: fp) ++ drop_digits decimal t).
        rewrite <- Ht, ReFacts.take_drop_digits, <- Hd. symmetry. exact Hsplit. }
      split; [reflexivity|]. split; [constructor|]. split; [exact Hwhole|].
      split; [apply take_digits_all|].
      split; [rewrite <- Ht; apply take_digits_all|].
      split; [apply drop_digits_head|discriminate].
    + exists (take_digits decimal (c :: s)), [], (drop_digits decimal (c :: s)).
      split; [rewrite app_nil_l; symmetry; exact Hsplit|].
      split; [cbn [app]; now rewrite app_nil_r|]. split; [constructor|].
      split; [exact Hwhole|]. split; [apply take_digits_all|].
      split; [constructor|]. split; [apply drop_digits_head|].
      intros _ rest Hrest. apply take_digits_none. now apply Hnone.
  - intros Hg.
    destruct (IH Hg)
      as (before & whole & fraction & after & -> & Hgroup & Hb & Hrest).
    exists (c :: before), whole, fraction, after.
    split; [reflexivity|]. split; [exact Hgroup|]. split; [now constructor|exact Hrest].
Qed.

(** The number that starts a text, when it is as long as it goes. *)
Lemma number_at_located whole fraction after :
  decimal 46%N = None ->
  Forall (fun c => is_digit decimal c = true) whole ->
  Forall (fun c => is_digit decimal c = true) fraction ->
  starts_without_digit decimal after ->
  (fraction = [] ->
   forall rest, after = 46%N :: rest -> starts_without_digit decimal rest) ->
  let group := whole ++ match fraction with [] => [] | _ => 46%N :: fraction end in
  number_at decimal (group ++ after) = group.
Proof.
  intros Hpoint Hwhole Hfraction Hafter Hlong group. unfold group.
  assert (Hstop : is_digit decimal 46 = false) by (unfold is_digit; now rewrite Hpoint).
  rewrite <- app_assoc.
  destruct fraction as [|f fp].
  - rewrite app_nil_l, app_nil_r.
    destruct (digits_app whole after Hwhole Hafter) as [Ht Hdrop].
    destruct (number_at_cases (whole ++ after))
      as [(t & f & fp & Hd' & Ht' & _)|[-> _]].
    + rewrite Hdrop in Hd'.
      pose proof (Hlong eq_refl t Hd') as Hrest.
      apply take_digits_none in Hrest. congruence.
    + exact Ht.
  - assert (Hrest : starts_without_digit decimal ((46%N :: f :: fp) ++ after))
      by exact Hstop.
    destruct (digits_app whole _ Hwhole Hrest) as [Ht Hdrop].
    destruct (digits_app (f :: fp) after Hfraction Hafter) as [Hft _].
    cbn [app] in Hft.
    destruct (number_at_cases (whole ++ (46%N :: f :: fp) ++ after))
      as [(t & f' & fp' & Hd' & Ht' & ->)|[_ Hnone]].
    + rewrite Hdrop in Hd'. injection Hd' as <-.
      rewrite Hft in Ht'. injection Ht' as <- <-. now rewrite Ht.
    + rewrite Hdrop in Hnone. specialize (Hnone (f :: fp ++ after) eq_refl).
      rewrite Hft in Hnone. discriminate Hnone.
Qed.

(** A number with no digit before it, and as long as it goes, is the first
    number of the text. *)
Lemma located_first_number before whole fraction after :
  decimal 46%N = None ->
  Forall (fun c => is_digit decimal c = false) before ->
  whole <> [] ->
  Forall (fun c => is_digit decimal c = true) whole ->
  Forall (fun c => is_digit decimal c = true) fraction ->
  starts_without_digit decimal after ->
  (fraction = [] ->
   forall rest, after = 46%N :: rest -> starts_without_digit decimal rest) ->
  let group := whole ++ match fraction with [] => [] | _ => 46%N :: fraction end in
  spec_first_decimal_number decimal (before ++ group ++ after) = Some group.
Proof.
  intros Hpoint Hbefore Hne Hwhole Hfraction Hafter Hlong group.
  pose proof (number_at_located whole fraction after Hpoint Hwhole Hfraction Hafter
                Hlong) as Hnumber.
  fold group in Hnumber.
  assert (Hstart : exists d rest, group ++ after = d :: rest
                                  /\ is_digit decimal d = true).
  { unfold group. destruct whole as [|d whole']; [now contradiction Hne|].
    exists d. eexists. split; [reflexivity|]. now inversion Hwhole. }
  destruct Hstart as (d & rest & Hstart & Hd).
  induction Hbefore as [|c before Hc _ IH].
  - rewrite app_nil_l, Hstart.
    change (spec_first_decimal_number decimal (d :: rest))
      with (if is_digit decimal d then Some (number_at decimal (d :: rest))
            else spec_first_decimal_number decimal rest).
    rewrite Hd, <- Hstart. now rewrite Hnumber.
  - change (spec_first_decimal_number decimal ((c :: before) ++ group ++ after))
      with (if is_digit decimal c
            then Some (number_at decimal (c :: before ++ group ++ after))
            else spec_first_decimal_number decimal (before ++ group ++ after)).
    rewrite Hc. exact IH.
Qed.

End WithDatabase.
End MatchFacts.

(** * Further properties of the client

    ** The request that [detect] sends *)

(** X1. A call of [detect] that returns has sent exactly one chat request:
    its text is the prompt of the mode built from the scene description, its
    image the data URL of the frame's JPEG bytes, its model [self.model],
    with max_tokens 5 and logprobs on; and it has constructed one client
    from [self.api_key] and [self.endpoint] in the parallel mode, none
    otherwise. *)
Theorem detect_request (E : Env) self frame_img scene_description threshold mode
    w obj w' :
  detect E self frame_img scene_description threshold mode w = (Ok obj, w') ->
  exists im jpeg through,
    Image_fromarray E (Some frame_img) = inr im
    /\ save_JPEG E im = inr jpeg
    /\ clients w' = clients w
                    ++ (if parallel_inference self
                        then [ {| cfg_api_key := api_key self;
                                  cfg_base_url := endpoint self |} ]
                        else [])
    /\ calls w' = calls w
                  ++ [ (through,
                        {| req_text :=
                             if mode then token_prompt scene_description
                             else scale_prompt scene_description;
                           req_image_url :=
                             lit "data:image/jpeg;base64," ++ base64.b64encode jpeg;
                           req_model := model self;
                           req_max_tokens := 5;
                           req_logprobs := true |}) ].
Proof.
  intros Hd.
  destruct (WorldFacts.detect_world E _ _ _ _ _ _ _ _ Hd) as (res0 & Hi & Hok).
  destruct (Hok obj eq_refl) as [x ->].
  unfold infer_with_image, bind in Hi.
  destruct (chat_request E self _ (Some frame_img) None w) as [[r|e] w1] eqn:Hreq;
    [|discriminate].
  apply WorldFacts.read_response_world in Hi. subst w1.
  destruct (WorldFacts.chat_request_sent E _ _ _ _ _ _ _ Hreq)
    as (im & through & jpeg & w1 & Hl & Hs & Hj & ->).
  destruct (WorldFacts.select_client_world E _ _ _ _ Hs) as (Hc & Hshared & Hpar & _).
  exists im, jpeg, through. cbn [clients calls].
  split.
  { unfold load_image, call, ret, raise in Hl.
    destruct (Image_fromarray E (Some frame_img)); congruence. }
  split; [exact Hj|]. split.
  - destruct (parallel_inference self).
    + now destruct (Hpar eq_refl _ eq_refl).
    + rewrite (Hshared eq_refl). now rewrite app_nil_r.
  - now rewrite Hc.
Qed.

(** X1 on the answer "Yes" (log-probability -0.1) to the question about a
    cat, in the parallel mode. *)
Lemma detect_request_witness :
  detect (Reference.env (Reference.completion (lit "Yes") (lit "Yes") (-0.1)))
    Reference.instance Reference.frame (lit "cat") 0.1 true Reference.nothing
  = (Ok (Reference.detected 0.905 true), Reference.asked (token_prompt (lit "cat")))
  /\ exists im jpeg through,
       Reference.image_of Reference.frame = im
       /\ jpeg = [10; 20; 30]%N
       /\ clients (Reference.asked (token_prompt (lit "cat")))
          = [ {| cfg_api_key := lit "empty";
                 cfg_base_url := lit "http://localhost:8000/v1" |} ]
       /\ calls (Reference.asked (token_prompt (lit "cat")))
          = [ (through,
               {| req_text := token_prompt (lit "cat");
                  req_image_url :=
                    lit "data:image/jpeg;base64," ++ base64.b64encode jpeg;
                  req_model := lit "OpenGVLab/InternVL2-8B";
                  req_max_tokens := 5;
                  req_logprobs := true |}) ].
Proof.
  assert (H : detect
                (Reference.env (Reference.completion (lit "Yes") (lit "Yes") (-0.1)))
                Reference.instance Reference.frame (lit "cat") 0.1 true
                Reference.nothing
              = (Ok (Reference.detected 0.905 true),
                 Reference.asked (token_prompt (lit "cat"))))
    by (vm_compute; reflexivity).
  split; [exact H|].
  destruct (detect_request _ _ _ _ _ _ _ _ _ H)
    as (im & jpeg & through & Him & Hjpeg & Hclients & Hcalls).
  exists im, jpeg, through.
  injection Him as Him. rewrite <- Him in Hjpeg. injection Hjpeg as Hjpeg.
  split; [exact Him|]. split; [symmetry; exact Hjpeg|].
  split; [exact Hclients | exact Hcalls].
Defined.

(** X2. Whatever its outcome, a call of [detect] constructs at most one
    client and sends at most one request, and leaves the clients and the
    requests of before as they were; an instance with a shared client never
    constructs one. *)
Theorem detect_effects_bounded (E : Env) self frame_img scene_description threshold
    mode w res w' :
  detect E self frame_img scene_description threshold mode w = (res, w') ->
  exists made sent,
    clients w' = clients w ++ made /\ calls w' = calls w ++ sent
    /\ (List.length made <= 1)%nat /\ (List.length sent <= 1)%nat
    /\ (parallel_inference self = false -> made = []).
Proof.
  intros Hd.
  destruct (WorldFacts.detect_world E _ _ _ _ _ _ _ _ Hd) as (res0 & Hi & _).
  destruct (WorldFacts.infer_with_image_world E _ _ _ _ _ _ _ Hi)
    as (made & sent & H1 & H2 & H3 & H4 & H5 & _).
  exists made, sent. repeat split; assumption.
Qed.

(** X2 on a shared client, whose missing attribute [stream] ends the call:
    nothing was constructed and nothing sent. *)
Lemma detect_effects_bounded_witness :
  detect (Reference.env (Reference.completion (lit "Yes") (lit "Yes") (-0.1)))
    Reference.shared_instance Reference.frame (lit "cat") 0.1 true
    Reference.one_client
  = (Err (AttributeError "stream"), Reference.one_client)
  /\ exists made sent,
       clients Reference.one_client = clients Reference.one_client ++ made
       /\ calls Reference.one_client = calls Reference.one_client ++ sent
       /\ (List.length made <= 1)%nat /\ (List.length sent <= 1)%nat
       /\ (parallel_inference Reference.shared_instance = false -> made = []).
Proof.
  assert (H : detect
                (Reference.env (Reference.completion (lit "Yes") (lit "Yes") (-0.1)))
                Reference.shared_instance Reference.frame (lit "cat") 0.1 true
                Reference.one_client
              = (Err (AttributeError "stream"), Reference.one_client))
    by (vm_compute; reflexivity).
  split; [exact H|].
  exact (detect_effects_bounded _ _ _ _ _ _ _ _ _ H).
Defined.

(** X3. In the parallel mode, in a world where every request recorded names
    a client that was constructed, a call of [infer_with_image] keeps it so;
    and when it returns, its request went through a client constructed in
    this call from [self.api_key] and [self.endpoint], through which no
    earlier request was sent. *)
Theorem parallel_requests_use_fresh_clients (E : Env) self language image
    image_path w res w' :
  parallel_inference self = true ->
  known_clients w ->
  infer_with_image E self language image image_path w = (res, w') ->
  known_clients w'
  /\ (forall x, res = Ok x ->
      exists req,
        calls w' = calls w ++ [ (OpenAIClient (List.length (clients w)), req) ]
        /\ nth_error (clients w') (List.length (clients w))
           = Some {| cfg_api_key := api_key self; cfg_base_url := endpoint self |}
        /\ forall earlier,
             ~ In (OpenAIClient (List.length (clients w)), earlier) (calls w)).
Proof.
  intros Hp Hk Hi.
  destruct (WorldFacts.infer_with_image_world E _ _ _ _ _ _ _ Hi)
    as (made & sent & Hcl & Hca & Hm & Hs & _ & Hfresh & Hone).
  split.
  - intros id req Hin. rewrite Hca in Hin. rewrite Hcl, length_app.
    apply in_app_or in Hin. destruct Hin as [Hin|Hin].
    + apply Hk in Hin. lia.
    + destruct (Hfresh _ _ Hin Hp) as [[= ->] ->]. simpl. lia.
  - intros x Hx. specialize (Hone x Hx).
    destruct sent as [|[through req] [|? ?]]; simpl in Hone; try lia.
    destruct (Hfresh through req (or_introl eq_refl) Hp) as [-> ->].
    exists req. split; [exact Hca|]. split.
    + rewrite Hcl, nth_error_app2, Nat.sub_diag by lia. reflexivity.
    + intros earlier Hin. apply Hk in Hin. lia.
Qed.

(** X3 on a second request of the same instance: it goes through a second
    client. *)
Lemma parallel_requests_use_fresh_clients_witness :
  parallel_inference Reference.instance = true
  /\ known_clients (Reference.asked (lit "first"))
  /\ (exists w',
        infer_with_image
          (Reference.env (Reference.completion (lit "Yes") (lit "Yes") (-0.1)))
          Reference.instance (lit "second") (Some Reference.frame) None
          (Reference.asked (lit "first"))
        = (Ok (Some (lit "Yes"), 0.90483741803595952%float), w')
        /\ known_clients w'
        /\ exists req,
             calls w' = calls (Reference.asked (lit "first")) ++ [ (OpenAIClient 1, req) ]
             /\ nth_error (clients w') 1
                = Some {| cfg_api_key := lit "empty";
                          cfg_base_url := lit "http://localhost:8000/v1" |}
             /\ forall earlier,
                  ~ In (OpenAIClient 1, earlier) (calls (Reference.asked (lit "first")))).
Proof.
  assert (Hk : known_clients (Reference.asked (lit "first"))).
  { intros id req [[= <- _]|[]]. simpl. lia. }
  split; [reflexivity|]. split; [exact Hk|].
  eexists.
  assert (H : infer_with_image
                (Reference.env (Reference.completion (lit "Yes") (lit "Yes") (-0.1)))
                Reference.instance (lit "second") (Some Reference.frame) None
                (Reference.asked (lit "first"))
              = (Ok (Some (lit "Yes"), 0.90483741803595952%float),
                 {| clients := clients (Reference.asked (lit "first"))
                               ++ clients (Reference.asked (lit "first"));
                    calls := calls (Reference.asked (lit "first"))
                             ++ [ (OpenAIClient 1,
                                   {| req_text := lit "second";
                                      req_image_url :=
                                        lit "data:image/jpeg;base64,"
                                        ++ base64.b64encode [10; 20; 30]%N;
                                      req_model := lit "OpenGVLab/InternVL2-8B";
                                      req_max_tokens := 5;
                                      req_logprobs := true |}) ] |}))
    by (vm_compute; reflexivity).
  split; [exact H|].
  destruct (parallel_requests_use_fresh_clients _ Reference.instance _ _ _ _ _ _
              eq_refl Hk H)
    as [Hk' Hsent].
  split; [exact Hk'|]. exact (Hsent _ eq_refl).
Defined.

(** ** Failures *)

(** X4. An exception that ends the call of [infer_with_image] ends [detect]
    with the same exception and in the same world, with one exception: in
    the scale mode a SyntaxError is caught, and the handler, reading the
    variable [confidence_str] that the failed call never bound, ends in
    UnboundLocalError. *)
Theorem detect_propagates_errors (E : Env) (self : t) frame_img scene_description
    threshold (mode : bool) w e w1 :
  infer_with_image E self
    (if mode then token_prompt scene_description else scale_prompt scene_description)
    (Some frame_img) None w = (Err e, w1) ->
  detect E self frame_img scene_description threshold mode w
  = (Err (if negb mode && is_SyntaxError e
          then UnboundLocalError "confidence_str" else e), w1).
Proof.
  intros Hi. unfold detect, bind. destruct mode.
  - rewrite Hi. reflexivity.
  - unfold try_extract. rewrite Hi. cbn [negb andb].
    destruct (is_SyntaxError e); reflexivity.
Qed.

(** X4 in the scale mode, on a server that raises SyntaxError. *)
Lemma detect_propagates_errors_witness :
  infer_with_image (Reference.env_raising Reference.syntax_error) Reference.instance
    (scale_prompt (lit "cat")) (Some Reference.frame) None Reference.nothing
  = (Err (Raised Reference.syntax_error), Reference.asked (scale_prompt (lit "cat")))
  /\ detect (Reference.env_raising Reference.syntax_error) Reference.instance
       Reference.frame (lit "cat") 0.1 false Reference.nothing
     = (Err (UnboundLocalError "confidence_str"),
        Reference.asked (scale_prompt (lit "cat"))).
Proof.
  assert (H : infer_with_image (Reference.env_raising Reference.syntax_error)
                Reference.instance
                (if false then token_prompt (lit "cat") else scale_prompt (lit "cat"))
                (Some Reference.frame) None Reference.nothing
              = (Err (Raised Reference.syntax_error),
                 Reference.asked (scale_prompt (lit "cat"))))
    by (vm_compute; reflexivity).
  split; [exact H|].
  exact (detect_propagates_errors _ _ _ _ 0.1%float false _ _ _ H).
Defined.

(** X5. A completion that lacks what [infer_with_image] reads ends the call
    after the request was sent: no choice gives IndexError; a first choice
    whose [logprobs] is None gives AttributeError; one whose
    [logprobs.content] is None gives TypeError, and an empty one IndexError;
    and a first token "Yes" or "No" on whose log-probability [math.exp]
    overflows gives OverflowError. *)
Theorem infer_with_image_malformed_completion (E : Env) self language image
    image_path w r w' :
  chat_request E self language image image_path w = (Ok r, w') ->
  (choices r = [] ->
   infer_with_image E self language image image_path w = (Err IndexError, w'))
  /\ (forall choice others,
        choices r = choice :: others ->
        (logprobs choice = None ->
         infer_with_image E self language image image_path w
         = (Err (AttributeError "content"), w'))
        /\ (logprobs choice = Some None ->
            infer_with_image E self language image image_path w = (Err TypeError, w'))
        /\ (logprobs choice = Some (Some []) ->
            infer_with_image E self language image image_path w = (Err IndexError, w'))
        /\ (forall first more,
              logprobs choice = Some (Some (first :: more)) ->
              token first = lit "Yes" \/ token first = lit "No" ->
              math_exp E (logprob first) = None ->
              infer_with_image E self language image image_path w
              = (Err OverflowError, w'))).
Proof.
  intros Hreq. rewrite (ClientFacts.infer_with_image_read E _ _ _ _ _ _ _ Hreq).
  unfold read_response, first_logprob, bind, item0, ret, raise.
  split.
  - intros ->. reflexivity.
  - intros choice others ->. repeat split.
    + intros ->. reflexivity.
    + intros ->. reflexivity.
    + intros ->. reflexivity.
    + intros first more -> Htok Hnone. unfold token_confidence. rewrite Hnone.
      destruct Htok as [-> | ->]; reflexivity.
Qed.

(** X5 on a completion without choices. *)
Lemma infer_with_image_malformed_completion_witness :
  chat_request (Reference.env Reference.no_choice) Reference.instance (lit "Cat?")
    (Some Reference.frame) None Reference.nothing
  = (Ok Reference.no_choice, Reference.asked (lit "Cat?"))
  /\ infer_with_image (Reference.env Reference.no_choice) Reference.instance
       (lit "Cat?") (Some Reference.frame) None Reference.nothing
     = (Err IndexError, Reference.asked (lit "Cat?")).
Proof.
  assert (H : chat_request (Reference.env Reference.no_choice) Reference.instance
                (lit "Cat?") (Some Reference.frame) None Reference.nothing
              = (Ok Reference.no_choice, Reference.asked (lit "Cat?")))
    by (vm_compute; reflexivity).
  split; [exact H|].
  exact (proj1 (infer_with_image_malformed_completion _ _ _ _ _ _ _ _ H) eq_refl).
Defined.

(** X6. When the message of the first choice has no content (None), the
    call of [infer_with_image] returns it, and [detect] fails on it:
    AttributeError on [response.lower()] in the token-probability mode,
    TypeError in [re.search] in the scale mode. *)
Theorem detect_without_text (E : Env) (self : t) frame_img scene_description
    threshold (mode : bool) w c w' :
  infer_with_image E self
    (if mode then token_prompt scene_description else scale_prompt scene_description)
    (Some frame_img) None w = (Ok (None, c), w') ->
  detect E self frame_img scene_description threshold mode w
  = (Err (if mode then AttributeError "lower" else TypeError), w').
Proof.
  intros Hi. unfold detect, bind. destruct mode.
  - rewrite Hi. reflexivity.
  - unfold try_extract. rewrite Hi. reflexivity.
Qed.

(** X6 in the scale mode. *)
Lemma detect_without_text_witness :
  infer_with_image (Reference.env Reference.no_text) Reference.instance
    (scale_prompt (lit "cat")) (Some Reference.frame) None Reference.nothing
  = (Ok (None, 0.90483741803595952%float), Reference.asked (scale_prompt (lit "cat")))
  /\ detect (Reference.env Reference.no_text) Reference.instance Reference.frame
       (lit "cat") 0.1 false Reference.nothing
     = (Err TypeError, Reference.asked (scale_prompt (lit "cat"))).
Proof.
  assert (H : infer_with_image (Reference.env Reference.no_text) Reference.instance
                (if false then token_prompt (lit "cat") else scale_prompt (lit "cat"))
                (Some Reference.frame) None Reference.nothing
              = (Ok (None, 0.90483741803595952%float),
                 Reference.asked (scale_prompt (lit "cat"))))
    by (vm_compute; reflexivity).
  split; [exact H|].
  exact (detect_without_text _ _ _ _ 0.1%float false _ _ _ H).
Defined.

(** X7. The two image arguments of [infer_with_image]: a path that is not
    empty is the one used, whatever the array; an empty path counts as no
    path when an array is given; and an empty path with no array passes the
    assertion, so that the call fails in [Image.fromarray(None)], before any
    client is made or any request sent. *)
Theorem image_path_takes_precedence (E : Env) self language w :
  (forall image image' c path,
     infer_with_image E self language image (Some (c :: path)) w
     = infer_with_image E self language image' (Some (c :: path)) w)
  /\ (forall a,
        infer_with_image E self language (Some a) (Some []) w
        = infer_with_image E self language (Some a) None w)
  /\ (forall e,
        Image_fromarray E None = inl e ->
        infer_with_image E self language None (Some []) w = (Err (Raised e), w)).
Proof.
  repeat split.
  - intros image image' c path.
    unfold infer_with_image, chat_request, bind, assert_image_given, py_assert.
    rewrite !orb_true_r. reflexivity.
  - intros e He.
    unfold infer_with_image, chat_request, bind, assert_image_given, py_assert, load_image.
    cbn [orb ret]. rewrite He. reflexivity.
Qed.



(** X9. Where a call of [infer_with_image] in the parallel mode can fail on
    its way to the server, and what it leaves behind: a frame that
    [Image.fromarray] refuses ends the call in an unchanged world; so does a
    key or endpoint that the constructor of the client refuses; a failure to
    write the JPEG ends it after the client was constructed, with no request
    sent; an exception of the request itself reaches the caller as it is,
    with the request on record. *)
Theorem infer_with_image_failure_stages (E : Env) self language frame_img w :
  parallel_inference self = true ->
  let config := {| cfg_api_key := api_key self; cfg_base_url := endpoint self |} in
  let made := {| clients := clients w ++ [config]; calls := calls w |} in
  (forall e,
     Image_fromarray E (Some frame_img) = inl e ->
     infer_with_image E self language (Some frame_img) None w = (Err (Raised e), w))
  /\ (forall im e,
        Image_fromarray E (Some frame_img) = inr im ->
        OpenAI_init E config = Some e ->
        infer_with_image E self language (Some frame_img) None w
        = (Err (Raised e), w))
  /\ (forall im e,
        Image_fromarray E (Some frame_img) = inr im ->
        OpenAI_init E config = None ->
        save_JPEG E im = inl e ->
        infer_with_image E self language (Some frame_img) None w
        = (Err (Raised e), made))
  /\ (forall im jpeg e,
        Image_fromarray E (Some frame_img) = inr im ->
        OpenAI_init E config = None ->
        save_JPEG E im = inr jpeg ->
        let client := OpenAIClient (List.length (clients w)) in
        let req := {| req_text := language;
                      req_image_url :=
                        lit "data:image/jpeg;base64," ++ base64.b64encode jpeg;
                      req_model := model self;
                      req_max_tokens := 5;
                      req_logprobs := true |} in
        chat_completions_create E made client req = inl e ->
        infer_with_image E self language (Some frame_img) None w
        = (Err (Raised e),
           {| clients := clients made; calls := calls w ++ [ (client, req) ] |})).
Proof.
  intros Hp config made.
  unfold infer_with_image, chat_request, bind, assert_image_given, py_assert, load_image,
    select_client, convert_np_image_to_url, create, OpenAI, call, ret, raise, bind.
  rewrite Hp. cbn [orb]. fold config. repeat split.
  - intros e ->. reflexivity.
  - intros im e -> ->. reflexivity.
  - intros im e -> -> ->. reflexivity.
  - intros im jpeg e -> -> ->. cbn [clients calls]. intros Hc.
    fold made. unfold made in Hc |- *. cbn [clients calls] in *. now rewrite Hc.
Qed.

(** X9 on a server that cannot be reached, and on an SDK that refuses the
    endpoint. *)
Lemma infer_with_image_failure_stages_witness :
  parallel_inference Reference.instance = true
  /\ infer_with_image (Reference.env_raising Reference.connection_error)
       Reference.instance (lit "Cat?") (Some Reference.frame) None Reference.nothing
     = (Err (Raised Reference.connection_error), Reference.asked (lit "Cat?"))
  /\ infer_with_image (Reference.env_refusing Reference.invalid_url Reference.no_choice)
       Reference.instance (lit "Cat?") (Some Reference.frame) None Reference.nothing
     = (Err (Raised Reference.invalid_url), Reference.nothing).
Proof.
  split; [reflexivity|]. split.
  - destruct (infer_with_image_failure_stages
                (Reference.env_raising Reference.connection_error) Reference.instance
                (lit "Cat?") Reference.frame Reference.nothing eq_refl)
      as (_ & _ & _ & Hrequest).
    exact (Hrequest _ _ Reference.connection_error eq_refl eq_refl eq_refl eq_refl).
  - destruct (infer_with_image_failure_stages
                (Reference.env_refusing Reference.invalid_url Reference.no_choice)
                Reference.instance (lit "Cat?") Reference.frame Reference.nothing
                eq_refl)
      as (_ & Hclient & _).
    exact (Hclient _ Reference.invalid_url eq_refl eq_refl).
Defined.

(** ** Detection and the threshold *)

(** X10. In the token-probability mode an object is reported as detected
    only if the answer contains "yes" (in any case), the confidence [c] that
    [infer_with_image] returned is not below or equal to the threshold, and
    the confidence reported is [round(c, 3)]. *)
Theorem detect_token_detection_means (E : Env) self frame_img scene_description
    threshold w obj w' :
  detect E self frame_img scene_description threshold true w = (Ok obj, w') ->
  is_detected obj = true ->
  exists text c,
    infer_with_image E self (token_prompt scene_description) (Some frame_img) None w
    = (Ok (Some text, c), w')
    /\ contains (lit "yes") (str_lower E text) = true
    /\ (c <=? threshold)%float = false
    /\ confidence obj = PyFloat.round c 3.
Proof.
  intros Hd Hdet.
  destruct (infer_with_image E self (token_prompt scene_description)
              (Some frame_img) None w) as [[[response c]|e] w1] eqn:Hi.
  - destruct response as [text|].
    + rewrite (ClientFacts.detect_token E _ _ _ threshold _ _ _ _ Hi) in Hd.
      injection Hd as <- <-. cbn [is_detected confidence] in *.
      apply andb_prop in Hdet. destruct Hdet as [Hyes Hnot].
      apply negb_true_iff in Hnot.
      exists text, c. rewrite Hyes, Hnot. repeat split.
    + unfold detect, bind in Hd. rewrite Hi in Hd. discriminate Hd.
  - unfold detect, bind in Hd. rewrite Hi in Hd. discriminate Hd.
Qed.

(** X10 on the answer "Yes" with log-probability -0.1 and threshold 0.1. *)
Lemma detect_token_detection_means_witness :
  detect (Reference.env (Reference.completion (lit "Yes") (lit "Yes") (-0.1)))
    Reference.instance Reference.frame (lit "cat") 0.1 true Reference.nothing
  = (Ok (Reference.detected 0.905 true), Reference.asked (token_prompt (lit "cat")))
  /\ is_detected (Reference.detected 0.905 true) = true
  /\ exists text c,
       infer_with_image
         (Reference.env (Reference.completion (lit "Yes") (lit "Yes") (-0.1)))
         Reference.instance (token_prompt (lit "cat")) (Some Reference.frame) None
         Reference.nothing
       = (Ok (Some text, c), Reference.asked (token_prompt (lit "cat")))
       /\ contains (lit "yes") (ascii_lower text) = true
       /\ (c <=? 0.1)%float = false
       /\ confidence (Reference.detected 0.905 true) = PyFloat.round c 3.
Proof.
  assert (H : detect
                (Reference.env (Reference.completion (lit "Yes") (lit "Yes") (-0.1)))
                Reference.instance Reference.frame (lit "cat") 0.1 true
                Reference.nothing
              = (Ok (Reference.detected 0.905 true),
                 Reference.asked (token_prompt (lit "cat"))))
    by (vm_compute; reflexivity).
  split; [exact H|]. split; [reflexivity|].
  exact (detect_token_detection_means _ _ _ _ _ _ _ _ H eq_refl).
Defined.

(** X11. The number read in the scale mode is the first one of the text:
    characters that are not decimal digits, put before the text, do not
    change it. A minus sign before the number is lost in this way. *)
Theorem extract_confidence_skips_non_digits (E : Env) before text w :
  (forall c, In c before -> decimal E c = None) ->
  extract_confidence E (Some (before ++ text)) w = extract_confidence E (Some text) w.
Proof.
  intros H. unfold extract_confidence.
  rewrite !ReFacts.search_first_decimal_number.
  now rewrite PrefixFacts.first_number_skips.
Qed.

(** X11 on the text "-7.5": it is read as 7.5. *)
Lemma extract_confidence_skips_non_digits_witness :
  (forall c, In c (lit "-") -> ascii_decimal c = None)
  /\ extract_confidence (Reference.env Reference.no_choice)
       (Some (lit "-" ++ lit "7.5")) Reference.nothing
     = extract_confidence (Reference.env Reference.no_choice)
         (Some (lit "7.5")) Reference.nothing
  /\ extract_confidence (Reference.env Reference.no_choice)
       (Some (lit "7.5")) Reference.nothing
     = (Ok 7.5%float, Reference.nothing).
Proof.
  assert (H : forall c, In c (lit "-")
                        -> decimal (Reference.env Reference.no_choice) c = None).
  { intros c [<-|[]]. reflexivity. }
  split; [exact H|]. split; [|vm_compute; reflexivity].
  exact (extract_confidence_skips_non_digits (Reference.env Reference.no_choice)
           (lit "-") (lit "7.5") Reference.nothing H).
Defined.

(** X12. In the token-probability mode, an answer that contains "yes" and
    whose first token is neither "Yes" nor "No" is reported as detected with
    confidence 0.0 as soon as the threshold is not zero or above: the
    confidence 0.0 that [infer_with_image] gives such an answer passes the
    test against a negative threshold. *)
Theorem detect_negative_threshold (E : Env) self frame_img scene_description
    threshold w w' r choice others text first more :
  chat_request E self (token_prompt scene_description) (Some frame_img) None w
  = (Ok r, w') ->
  choices r = choice :: others ->
  message_content choice = Some text ->
  logprobs choice = Some (Some (first :: more)) ->
  token first <> lit "Yes" ->
  token first <> lit "No" ->
  contains (lit "yes") (str_lower E text) = true ->
  (0 <=? threshold)%float = false ->
  exists obj,
    detect E self frame_img scene_description threshold true w = (Ok obj, w')
    /\ is_detected obj = true
    /\ confidence obj = 0%float.
Proof.
  intros Hreq Hchoice Htext Hfirst Hyes Hno Hcontains Hthr.
  pose proof (ClientFacts.infer_with_image_unanswered E _ _ _ _ _ _ _ _ _ _ _
                Hreq Hchoice Hfirst Hyes Hno) as Hinfer.
  rewrite Htext in Hinfer.
  eexists. split; [exact (ClientFacts.detect_token E _ _ _ threshold _ _ _ _ Hinfer)|].
  cbn [is_detected confidence]. rewrite Hcontains, Hthr. cbn [andb negb].
  split; [reflexivity|apply ClientFacts.round_zero].
Qed.

(** X12 on the answer "Sure, yes" and the threshold -1. *)
Lemma detect_negative_threshold_witness :
  chat_request (Reference.env (Reference.completion (lit "Sure, yes") (lit "Sure") (-0.1)))
    Reference.instance (token_prompt (lit "cat")) (Some Reference.frame) None
    Reference.nothing
  = (Ok (Reference.completion (lit "Sure, yes") (lit "Sure") (-0.1)),
     Reference.asked (token_prompt (lit "cat")))
  /\ lit "Sure" <> lit "Yes"
  /\ lit "Sure" <> lit "No"
  /\ contains (lit "yes") (ascii_lower (lit "Sure, yes")) = true
  /\ (0 <=? -1)%float = false
  /\ exists obj,
       detect (Reference.env (Reference.completion (lit "Sure, yes") (lit "Sure") (-0.1)))
         Reference.instance Reference.frame (lit "cat") (-1) true Reference.nothing
       = (Ok obj, Reference.asked (token_prompt (lit "cat")))
       /\ is_detected obj = true
       /\ confidence obj = 0%float.
Proof.
  assert (Hreq : chat_request
                   (Reference.env
                      (Reference.completion (lit "Sure, yes") (lit "Sure") (-0.1)))
                   Reference.instance (token_prompt (lit "cat")) (Some Reference.frame)
                   None Reference.nothing
                 = (Ok (Reference.completion (lit "Sure, yes") (lit "Sure") (-0.1)),
                    Reference.asked (token_prompt (lit "cat"))))
    by (vm_compute; reflexivity).
  assert (Hyes : lit "Sure" <> lit "Yes") by (intros Heq; discriminate Heq).
  assert (Hno : lit "Sure" <> lit "No") by (intros Heq; discriminate Heq).
  assert (Hcontains : contains (lit "yes") (ascii_lower (lit "Sure, yes")) = true)
    by (vm_compute; reflexivity).
  assert (Hthr : (0 <=? -1)%float = false) by (vm_compute; reflexivity).
  repeat (split; [assumption|]).
  exact (detect_negative_threshold
           (Reference.env (Reference.completion (lit "Sure, yes") (lit "Sure") (-0.1)))
           Reference.instance Reference.frame (lit "cat") (-1)%float
           Reference.nothing _ _ _ [] (lit "Sure, yes")
           {| token := lit "Sure"; logprob := (-0.1)%float |} []
           Hreq eq_refl eq_refl eq_refl Hyes Hno Hcontains Hthr).
Defined.

(** X13. The threshold in the scale mode: whenever [infer_with_image]
    returns a text, [detect] returns; with a negative threshold the object
    is always reported as detected, with a threshold of 1.0 or more never,
    and a confidence equal to the threshold does not count as a detection.
    (The full stop is taken not to be a decimal digit.) *)
Theorem detect_scale_threshold_bounds (E : Env) self frame_img scene_description
    threshold w w' text c0 :
  infer_with_image E self (scale_prompt scene_description) (Some frame_img) None w
  = (Ok (Some text, c0), w') ->
  decimal E 46 = None ->
  exists scaled obj,
    Re.spec_scaled_confidence (decimal E) text = Some scaled
    /\ detect E self frame_img scene_description threshold false w = (Ok obj, w')
    /\ ((threshold <? 0)%float = true -> is_detected obj = true)
    /\ ((1 <=? threshold)%float = true -> is_detected obj = false)
    /\ (threshold = scaled -> is_detected obj = false).
Proof.
  intros Hinfer Hstop.
  destruct (ClientFacts.extract_confidence_scaled E text w' Hstop) as [v [Hv Hs]].
  pose proof (ClientFacts.extract_confidence_nonneg E _ _ _ Hv) as Hn.
  destruct (FloatFacts.min_one_unit _ (FloatFacts.div_ten_nonneg _ Hn)) as [H0 H1].
  exists (PyFloat.min (v / 10) 1). eexists.
  split; [exact Hs|].
  split; [exact (ClientFacts.detect_scale E _ _ _ threshold _ _ _ _ _ Hinfer Hv)|].
  cbn [is_detected]. repeat split.
  - intros Hneg. apply negb_true_iff.
    destruct (PyFloat.min (v / 10) 1 <=? threshold)%float eqn:Hle; trivial.
    pose proof (OrderFacts.leb_trans _ _ _ H0 Hle) as H0t.
    now rewrite (FloatFacts.ltb_not_leb _ _ Hneg) in H0t.
  - intros Hone. apply negb_false_iff. exact (OrderFacts.leb_trans _ _ _ H1 Hone).
  - intros ->. apply negb_false_iff. exact (OrderFacts.leb_refl _ _ H1).
Qed.

(** X13 on the answer "10" and the threshold 1.0: full confidence is not a
    detection. *)
Lemma detect_scale_threshold_bounds_witness :
  infer_with_image (Reference.env (Reference.completion (lit "10") (lit "10") (-0.1)))
    Reference.instance (scale_prompt (lit "cat")) (Some Reference.frame) None
    Reference.nothing
  = (Ok (Some (lit "10"), 0%float), Reference.asked (scale_prompt (lit "cat")))
  /\ ascii_decimal 46 = None
  /\ exists obj,
       detect (Reference.env (Reference.completion (lit "10") (lit "10") (-0.1)))
         Reference.instance Reference.frame (lit "cat") 1 false Reference.nothing
       = (Ok obj, Reference.asked (scale_prompt (lit "cat")))
       /\ is_detected obj = false.
Proof.
  assert (H : infer_with_image
                (Reference.env (Reference.completion (lit "10") (lit "10") (-0.1)))
                Reference.instance (scale_prompt (lit "cat")) (Some Reference.frame)
                None Reference.nothing
              = (Ok (Some (lit "10"), 0%float),
                 Reference.asked (scale_prompt (lit "cat"))))
    by (vm_compute; reflexivity).
  split; [exact H|]. split; [reflexivity|].
  destruct (detect_scale_threshold_bounds
              (Reference.env (Reference.completion (lit "10") (lit "10") (-0.1)))
              Reference.instance Reference.frame (lit "cat") 1%float _ _ _ _
              H eq_refl)
    as (scaled & obj & _ & Hd & _ & Hone & _).
  exists obj. split; [exact Hd|]. apply Hone. reflexivity.
Defined.

(** X14. What [re.search] finds with the pattern of the scale mode is the
    leftmost number of the text, taken as long as it goes, and nothing else
    is: the match is a run of decimal digits, followed by a full stop and a
    second run of digits where the text has them; no decimal digit comes
    before the match; no digit follows it; and a match without a fraction
    is not followed by a full stop and a digit. (The full stop is taken not
    to be a decimal digit.) *)
Theorem search_is_leftmost_longest decimal text group :
  decimal 46%N = None ->
  Re.search decimal Re.number_re text = Some group
  <-> exists before whole fraction after,
        text = before ++ group ++ after
        /\ group = whole ++ match fraction with [] => [] | _ => 46%N :: fraction end
        /\ Forall (fun c => Re.is_digit decimal c = false) before
        /\ whole <> []
        /\ Forall (fun c => Re.is_digit decimal c = true) whole
        /\ Forall (fun c => Re.is_digit decimal c = true) fraction
        /\ Re.starts_without_digit decimal after
        /\ (fraction = [] ->
            forall rest, after = 46%N :: rest -> Re.starts_without_digit decimal rest).
Proof.
  intros Hpoint. rewrite ReFacts.search_first_decimal_number. split.
  - apply MatchFacts.first_number_located.
  - intros (before & whole & fraction & after & -> & -> & Hb & Hne & Hw & Hf & Ha & Hl).
    now apply MatchFacts.located_first_number.
Qed.

(** X14 on the text "about 7.5/10": the match is "7.5", and "7" is none. *)
Lemma search_is_leftmost_longest_witness :
  ascii_decimal 46 = None
  /\ Re.search ascii_decimal Re.number_re (lit "about 7.5/10") = Some (lit "7.5")
  /\ (exists before whole fraction after,
        lit "about 7.5/10" = before ++ lit "7.5" ++ after
        /\ lit "7.5" = whole ++ match fraction with [] => [] | _ => 46%N :: fraction end
        /\ Forall (fun c => Re.is_digit ascii_decimal c = false) before
        /\ whole <> []
        /\ Forall (fun c => Re.is_digit ascii_decimal c = true) whole
        /\ Forall (fun c => Re.is_digit ascii_decimal c = true) fraction
        /\ Re.starts_without_digit ascii_decimal after
        /\ (fraction = [] ->
            forall rest, after = 46%N :: rest ->
                         Re.starts_without_digit ascii_decimal rest))
  /\ Re.search ascii_decimal Re.number_re (lit "about 7.5/10") <> Some (lit "7").
Proof.
  assert (H : Re.search ascii_decimal Re.number_re (lit "about 7.5/10")
              = Some (lit "7.5"))
    by (vm_compute; reflexivity).
  split; [reflexivity|]. split; [exact H|]. split.
  - exact (proj1 (search_is_leftmost_longest ascii_decimal _ _ eq_refl) H).
  - rewrite H. intros Heq. discriminate Heq.
Defined.

(** ** The constructor *)

(** X15. The constructor fails only where the constructor of the client
    does: on an instance that is not for parallel inference, with a key or
    endpoint that the SDK refuses, it ends with the exception of the SDK in
    an unchanged world. In every other case it returns an instance and sends
    nothing; it constructs one client, from the key and the endpoint given,
    unless the instance is for parallel inference, and keeps every recorded
    request on a constructed client. Every object that [detect] returns for
    the instance, at any later time, is named by the scene description and
    carries the model given to the constructor, which is also the model the
    request asked for. *)
Theorem constructed_instance (E : Env) endpoint api_key model (parallel : bool) w :
  (forall e,
     parallel = false ->
     OpenAI_init E {| cfg_api_key := api_key; cfg_base_url := endpoint |} = Some e ->
     __init__ E endpoint api_key model parallel w = (Err (Raised e), w))
  /\ (parallel = true
      \/ OpenAI_init E {| cfg_api_key := api_key; cfg_base_url := endpoint |} = None ->
      exists self w1,
        __init__ E endpoint api_key model parallel w = (Ok self, w1)
        /\ calls w1 = calls w
        /\ clients w1
           = clients w
             ++ (if parallel then []
                 else [ {| cfg_api_key := api_key; cfg_base_url := endpoint |} ])
        /\ client self = (if parallel then None else Some (List.length (clients w)))
        /\ (known_clients w -> known_clients w1)
        /\ forall E' frame_img scene_description threshold mode w' obj w2,
             detect E' self frame_img scene_description threshold mode w'
             = (Ok obj, w2) ->
             name obj = scene_description
             /\ detected_object.model_name obj = model
             /\ exists through req,
                  calls w2 = calls w' ++ [ (through, req) ] /\ req_model req = model).
Proof.
  unfold __init__, bind, OpenAI, ret. split.
  - intros e -> He. cbn [negb]. rewrite He. reflexivity.
  - intros Hmade.
    assert (Hlater : forall self,
               VisionLanguageModelVLLM.model_name self = model ->
               VisionLanguageModelVLLM.model self = model ->
               forall E' frame_img scene_description threshold mode w' obj w2,
                 detect E' self frame_img scene_description threshold mode w'
                 = (Ok obj, w2) ->
                 name obj = scene_description
                 /\ detected_object.model_name obj = model
                 /\ exists through req,
                      calls w2 = calls w' ++ [ (through, req) ]
                      /\ req_model req = model).
    { intros self Hname Hmodel E' frame_img scene_description threshold mode w' obj w2
        Hd.
      destruct (WorldFacts.detect_names _ _ _ _ _ _ _ _ _ Hd) as [Hn Hm].
      destruct (WorldFacts.detect_asks_model _ _ _ _ _ _ _ _ _ Hd)
        as (through & req & Hcalls & Hreq).
      split; [exact Hn|]. split; [congruence|].
      exists through, req. split; [exact Hcalls|congruence]. }
    destruct parallel; cbn [negb].
    + eexists. eexists. split; [reflexivity|]. cbn [calls clients client].
      rewrite app_nil_r. do 4 (split; [trivial|]). now apply Hlater.
    + destruct Hmade as [Hmade|Hmade]; [discriminate Hmade|]. rewrite Hmade.
      eexists. eexists. split; [reflexivity|]. cbn [calls clients client].
      do 3 (split; [reflexivity|]). split; [|now apply Hlater].
      intros Hk id req Hin. cbn [calls clients] in *. rewrite length_app.
      apply Hk in Hin. simpl. lia.
Qed.

(** X15 on an SDK that refuses the endpoint, and on one that takes it. *)
Lemma constructed_instance_witness :
  __init__ (Reference.env_refusing Reference.invalid_url Reference.no_choice)
    (lit "localhost:8000") (lit "empty") (lit "OpenGVLab/InternVL2-8B") false
    Reference.nothing
  = (Err (Raised Reference.invalid_url), Reference.nothing)
  /\ exists self w1,
       __init__ (Reference.env Reference.no_choice)
         (lit "http://localhost:8000/v1") (lit "empty") (lit "OpenGVLab/InternVL2-8B")
         false Reference.nothing
       = (Ok self, w1)
       /\ calls w1 = []
       /\ clients w1 = [ {| cfg_api_key := lit "empty";
                            cfg_base_url := lit "http://localhost:8000/v1" |} ]
       /\ client self = Some 0%nat.
Proof.
  split.
  - exact (proj1 (constructed_instance
                    (Reference.env_refusing Reference.invalid_url Reference.no_choice)
                    (lit "localhost:8000") (lit "empty") (lit "OpenGVLab/InternVL2-8B")
                    false Reference.nothing)
             Reference.invalid_url eq_refl eq_refl).
  - destruct (proj2 (constructed_instance (Reference.env Reference.no_choice)
                       (lit "http://localhost:8000/v1") (lit "empty")
                       (lit "OpenGVLab/InternVL2-8B") false Reference.nothing)
                (or_intror eq_refl))
      as (self & w1 & Hinit & Hcalls & Hclients & Hclient & _).
    exists self, w1. repeat split; assumption.
Defined.
